(** * deepwiki-export: filename derivation, URL transformation, chunk writer

    A shallow embedding of [src/deepwiki_export/utils.py],
    [src/deepwiki_export/save_markdown_from_url.py] and
    [src/deepwiki_export/chunk_processor.py], together with the parts of
    CPython 3.11's [str], [re], [urllib.parse] and [pathlib] (POSIX flavour)
    that these files call.

    A Python [str] is a [string]: a sequence of characters, each one an
    [ascii] value.  The characters below 128 are the ASCII characters; the
    others stand for non-ASCII characters, which the code never inspects
    except to find them outside the ASCII classes. *)

From Stdlib Require Import Ascii NArith DecimalString.
From stdpp Require Import base option list gmap strings.

(** ** Python [str] methods *)

Module PyStr.

(** [c in chars], for a single character [c]. *)
Fixpoint mem (c : ascii) (chars : string) : bool :=
  match chars with
  | EmptyString => false
  | String d chars' => Ascii.eqb c d || mem c chars'
  end.

(** [all(p(c) for c in s)]. *)
Fixpoint all (p : ascii -> bool) (s : string) : bool :=
  match s with
  | EmptyString => true
  | String c s' => p c && all p s'
  end.

(** [not s]: the empty string is the only falsy string. *)
Definition is_empty (s : string) : bool :=
  match s with
  | EmptyString => true
  | String _ _ => false
  end.

(** [s.startswith(p)]. *)
Fixpoint startswith (s p : string) {struct p} : bool :=
  match p, s with
  | EmptyString, _ => true
  | String _ _, EmptyString => false
  | String d p', String c s' => Ascii.eqb c d && startswith s' p'
  end.

(** [s[:n]]. *)
Fixpoint take (n : nat) (s : string) : string :=
  match n, s with
  | O, _ => EmptyString
  | S _, EmptyString => EmptyString
  | S n', String c s' => String c (take n' s')
  end.

(** [s[n:]]. *)
Fixpoint drop (n : nat) (s : string) : string :=
  match n, s with
  | O, _ => s
  | S _, EmptyString => EmptyString
  | S n', String _ s' => drop n' s'
  end.

(** [s.find(c)] for a single character: the index of its first occurrence. *)
Fixpoint find (c : ascii) (s : string) : option nat :=
  match s with
  | EmptyString => None
  | String d s' => if Ascii.eqb d c then Some O else S <$> find c s'
  end.

(** [s.rfind(c)] for a single character: the index of its last occurrence. *)
Fixpoint rfind (c : ascii) (s : string) : option nat :=
  match s with
  | EmptyString => None
  | String d s' =>
      match rfind c s' with
      | Some i => Some (S i)
      | None => if Ascii.eqb d c then Some O else None
      end
  end.

(** [s.split(c, 1)], as the part before the first [c] and, when there is
    one, the part after it. *)
Definition split1 (c : ascii) (s : string) : string * option string :=
  match find c s with
  | Some i => (take i s, Some (drop (S i) s))
  | None => (s, None)
  end.

(** [s.split(c)]: the fields between the occurrences of [c]. *)
Fixpoint split (c : ascii) (s : string) : list string :=
  match s with
  | EmptyString => [EmptyString]
  | String d s' =>
      if Ascii.eqb d c then EmptyString :: split c s'
      else match split c s' with
           | [] => [String d EmptyString]
           | f :: fs => String d f :: fs
           end
  end.

(** [sep.join(l)]. *)
Fixpoint join (sep : string) (l : list string) : string :=
  match l with
  | [] => EmptyString
  | [x] => x
  | x :: l' => x +:+ sep +:+ join sep l'
  end.

(** [s.lstrip(chars)]. *)
Fixpoint lstrip (chars : string) (s : string) : string :=
  match s with
  | EmptyString => EmptyString
  | String c s' => if mem c chars then lstrip chars s' else s
  end.

(** [s.rstrip(chars)]. *)
Fixpoint rstrip (chars : string) (s : string) : string :=
  match s with
  | EmptyString => EmptyString
  | String c s' =>
      match rstrip chars s' with
      | EmptyString => if mem c chars then EmptyString else String c EmptyString
      | r => String c r
      end
  end.

(** [s.strip(chars)]. *)
Definition strip (chars : string) (s : string) : string :=
  rstrip chars (lstrip chars s).

(** [s.replace(c, "")] for a single character. *)
Fixpoint remove (c : ascii) (s : string) : string :=
  match s with
  | EmptyString => EmptyString
  | String d s' => if Ascii.eqb d c then remove c s' else String d (remove c s')
  end.

(** Character between two others, in code-point order. *)
Definition between (lo hi c : ascii) : bool :=
  (N_of_ascii lo <=? N_of_ascii c)%N && (N_of_ascii c <=? N_of_ascii hi)%N.

Definition is_lower (c : ascii) : bool := between "a"%char "z"%char c.
Definition is_upper (c : ascii) : bool := between "A"%char "Z"%char c.
Definition is_digit (c : ascii) : bool := between "0"%char "9"%char c.

(** [c.isascii()]. *)
Definition isascii (c : ascii) : bool := (N_of_ascii c <? 128)%N.

(** [s.isascii()]. *)
Definition str_isascii (s : string) : bool := all isascii s.

(** [c.lower()] on the characters the code lowers (scheme characters). *)
Definition lower_char (c : ascii) : ascii :=
  if is_upper c then ascii_of_N (N_of_ascii c + 32) else c.

(** [s.lower()], on ASCII text. *)
Fixpoint lower (s : string) : string :=
  match s with
  | EmptyString => EmptyString
  | String c s' => String (lower_char c) (lower s')
  end.

(** First and last character. *)
Definition first (s : string) : option ascii :=
  match s with
  | EmptyString => None
  | String c _ => Some c
  end.

Fixpoint last (s : string) : option ascii :=
  match s with
  | EmptyString => None
  | String c s' => match last s' with Some d => Some d | None => Some c end
  end.

(** [s.endswith(p)]: [s] is some text followed by [p]. *)
Definition endswith (s p : string) : Prop := exists front, s = front +:+ p.

(** [str(n)] for a non-negative integer. *)
Definition of_nat (n : nat) : string := NilZero.string_of_uint (Nat.to_uint n).

End PyStr.

(** ** [re.sub] for the two patterns of [utils.py]

    Both patterns are one character class under [+].  [re.sub] scans the
    text from the left; where the class matches it takes the longest run
    (the [+] is greedy), emits the replacement once and resumes after the
    run; any other character is copied. *)

Module Re.

(** [in_match] is true while the scan is inside a run already replaced. *)
Fixpoint sub_go (cls : ascii -> bool) (repl : string) (in_match : bool) (s : string) : string :=
  match s with
  | EmptyString => EmptyString
  | String c s' =>
      if cls c then
        if in_match then sub_go cls repl true s'
        else repl +:+ sub_go cls repl true s'
      else String c (sub_go cls repl false s')
  end.

(** [re.sub(r'[cls]+', repl, s)]. *)
Definition sub_class_plus (cls : ascii -> bool) (repl : string) (s : string) : string :=
  sub_go cls repl false s.

End Re.

(** ** Exceptions

    The exception classes that the code raises or names in a handler.  Every
    one is a subclass of [Exception]; [IOError] is Python 3's alias of
    [OSError]. *)

Inductive exn : Type :=
| ValueError
| OSError
| RequestsTimeout
| RequestsHTTPError
| RequestException
| OtherException (name : string).

(** What a call gives back: a value, or an exception. *)
Inductive result (A : Type) : Type :=
| Returns (a : A)
| Raises (e : exn).

Arguments Returns {A} a.
Arguments Raises {A} e.

Definition result_bind {A B : Type} (r : result A) (k : A -> result B) : result B :=
  match r with
  | Returns a => k a
  | Raises e => Raises e
  end.

(** ** [urllib.parse] (CPython 3.11) *)

Module UrlParse.

(** The two checks of [urlsplit] that rest on tables outside this
    development: [_check_bracketed_host] (it parses an IP address with
    [ipaddress]) and the part of [_checknetloc] that runs on a non-ASCII
    netloc (it normalizes with [unicodedata]).  Each says whether the check
    returns ([true]) or raises [ValueError] ([false]). *)
Record Checks : Type := {
  _check_bracketed_host : string -> bool;
  checknetloc_nonascii : string -> bool;
}.

Record ParseResult : Type := {
  scheme : string;
  netloc : string;
  path : string;
  params : string;
  query : string;
  fragment : string;
}.

Definition uses_params : list string :=
  [""; "ftp"; "hdl"; "prospero"; "http"; "imap";
   "https"; "shttp"; "rtsp"; "rtspu"; "sip"; "sips";
   "mms"; "sftp"; "tel"].

Definition scheme_chars : string :=
  "abcdefghijklmnopqrstuvwxyz" +:+ "ABCDEFGHIJKLMNOPQRSTUVWXYZ" +:+ "0123456789" +:+ "+-.".

(** [''.join([chr(i) for i in range(0, 0x20 + 1)])]. *)
Definition _WHATWG_C0_CONTROL_OR_SPACE : string :=
  String.string_of_list_ascii (List.map ascii_of_nat (seq 0 33)).

Definition _UNSAFE_URL_BYTES_TO_REMOVE : list ascii :=
  [ascii_of_nat 9; ascii_of_nat 13; ascii_of_nat 10].

(** [url.find(c, start)]. *)
Definition find_from (c : ascii) (start : nat) (url : string) : option nat :=
  (fun i => start + i) <$> PyStr.find c (PyStr.drop start url).

Definition _splitnetloc (url : string) (start : nat) : string * string :=
  let delim :=
    fold_left
      (fun delim c =>
         match find_from c start url with
         | Some wdelim => Nat.min delim wdelim
         | None => delim
         end)
      ["/"%char; "?"%char; "#"%char] (String.length url) in
  (PyStr.take (delim - start) (PyStr.drop start url), PyStr.drop delim url).

(** [s.rpartition(c)[2]]: what follows the last [c], or all of [s]. *)
Definition rpartition_tail (c : ascii) (s : string) : string :=
  match PyStr.rfind c s with
  | Some i => PyStr.drop (S i) s
  | None => s
  end.

(** [s.partition(c)]: (before, whether [c] occurs, after). *)
Definition partition (c : ascii) (s : string) : string * bool * string :=
  match PyStr.find c s with
  | Some i => (PyStr.take i s, true, PyStr.drop (S i) s)
  | None => (s, false, EmptyString)
  end.

Definition _check_bracketed_netloc (lib : Checks) (netloc : string) : result unit :=
  let hostname_and_port := rpartition_tail "@" netloc in
  let '(before_bracket, have_open_br, bracketed) := partition "[" hostname_and_port in
  let checked_host (hostname : string) : result unit :=
    if _check_bracketed_host lib hostname then Returns tt else Raises ValueError in
  if have_open_br then
    if negb (PyStr.is_empty before_bracket) then Raises ValueError
    else
      let '(hostname, _, port) := partition "]" bracketed in
      if negb (PyStr.is_empty port) && negb (PyStr.startswith port ":")
      then Raises ValueError
      else checked_host hostname
  else
    let '(hostname, _, _) := partition ":" hostname_and_port in
    checked_host hostname.

Definition _checknetloc (lib : Checks) (netloc : string) : result unit :=
  if PyStr.is_empty netloc || PyStr.str_isascii netloc then Returns tt
  else if checknetloc_nonascii lib netloc then Returns tt
  else Raises ValueError.

(** [c.isascii() and c.isalpha()]. *)
Definition is_ascii_alpha (c : ascii) : bool := PyStr.is_lower c || PyStr.is_upper c.

(** The scheme of [url], and what follows its colon, when [url] starts
    with a scheme. *)
Definition split_scheme (url : string) : string * string :=
  match PyStr.find ":" url, PyStr.first url with
  | Some (S i' as i), Some c0 =>
      if is_ascii_alpha c0 && PyStr.all (fun c => PyStr.mem c scheme_chars) (PyStr.take i url)
      then (PyStr.lower (PyStr.take i url), PyStr.drop (S i) url)
      else (EmptyString, url)
  | _, _ => (EmptyString, url)
  end.

(** [urlsplit(url)], with the default [scheme=''] and
    [allow_fragments=True]: (scheme, netloc, path, query, fragment). *)
Definition urlsplit (lib : Checks) (url : string)
  : result (string * string * string * string * string) :=
  let url := PyStr.lstrip _WHATWG_C0_CONTROL_OR_SPACE url in
  let url := fold_left (fun url b => PyStr.remove b url) _UNSAFE_URL_BYTES_TO_REMOVE url in
  let '(scheme, url) := split_scheme url in
  result_bind
    (if String.eqb (PyStr.take 2 url) "//" then
       let '(netloc, url) := _splitnetloc url 2 in
       let open_br := PyStr.mem "[" netloc in
       let close_br := PyStr.mem "]" netloc in
       if (open_br && negb close_br) || (close_br && negb open_br)
       then Raises ValueError
       else
         result_bind
           (if open_br && close_br then _check_bracketed_netloc lib netloc else Returns tt)
           (fun _ => Returns (netloc, url))
     else Returns (EmptyString, url))
    (fun '(netloc, url) =>
       let '(url, fragment) :=
         match PyStr.split1 "#" url with
         | (u, Some f) => (u, f)
         | (u, None) => (u, EmptyString)
         end in
       let '(url, query) :=
         match PyStr.split1 "?" url with
         | (u, Some q) => (u, q)
         | (u, None) => (u, EmptyString)
         end in
       result_bind (_checknetloc lib netloc)
         (fun _ => Returns (scheme, netloc, url, query, fragment))).

Definition _splitparams (url : string) : string * string :=
  let cut (i : nat) := (PyStr.take i url, PyStr.drop (S i) url) in
  match PyStr.rfind "/" url with
  | Some slash =>
      match find_from ";" slash url with
      | Some i => cut i
      | None => (url, EmptyString)
      end
  | None =>
      match PyStr.find ";" url with
      | Some i => cut i
      | None => (PyStr.take (String.length url - 1) url, url)
      end
  end.

Definition urlparse (lib : Checks) (url : string) : result ParseResult :=
  result_bind (urlsplit lib url)
    (fun '(scheme, netloc, url, query, fragment) =>
       let '(url, params) :=
         if bool_decide (scheme ∈ uses_params) && PyStr.mem ";" url
         then _splitparams url
         else (url, EmptyString) in
       Returns {| scheme := scheme; netloc := netloc; path := url;
                  params := params; query := query; fragment := fragment |}).

End UrlParse.

(** ** [pathlib] (CPython 3.11, POSIX flavour: no drive) *)

Module Pathlib.

(** A parsed path: its root (empty, one slash or two) and its parts, the
    root first when there is one. *)
Record PurePath : Type := {
  root : string;
  parts : list string;
}.

Definition splitroot (part : string) : string * string :=
  match part with
  | String "/" _ =>
      let stripped_part := PyStr.lstrip "/" part in
      if String.length part - String.length stripped_part =? 2
      then ("//", stripped_part)
      else ("/", stripped_part)
  | _ => (EmptyString, part)
  end.

(** [parse_parts] on one argument: the constructor [Path(s)]. *)
Definition parse (s : string) : PurePath :=
  if PyStr.is_empty s then {| root := EmptyString; parts := [] |}
  else
    let '(root, rel) := splitroot s in
    let parsed :=
      List.filter (fun x => negb (PyStr.is_empty x) && negb (String.eqb x "."))
        (PyStr.split "/" rel) in
    {| root := root;
       parts := if PyStr.is_empty root then parsed else root :: parsed |}.

Definition name (p : PurePath) : string :=
  if length (parts p) =? (if PyStr.is_empty (root p) then 0 else 1)
  then EmptyString
  else List.last (parts p) EmptyString.

Definition stem (p : PurePath) : string :=
  let name := name p in
  match PyStr.rfind "." name with
  | Some i => if (0 <? i) && (i <? String.length name - 1) then PyStr.take i name else name
  | None => name
  end.

(** [p / key] for a [str] key. *)
Definition truediv (p : PurePath) (key : string) : PurePath :=
  let p2 := parse key in
  if PyStr.is_empty (root p2)
  then {| root := root p; parts := parts p ++ parts p2 |}
  else p2.

(** [str(p)], which is also what [open] receives. *)
Definition to_str (p : PurePath) : string :=
  let s :=
    if PyStr.is_empty (root p) then PyStr.join "/" (parts p)
    else root p +:+ PyStr.join "/" (List.tl (parts p)) in
  if PyStr.is_empty s then "." else s.

End Pathlib.

(** ** [utils.py] *)

(** The class [[a-zA-Z0-9._-]]. *)
Definition safe_char (c : ascii) : bool :=
  PyStr.is_lower c || PyStr.is_upper c || PyStr.is_digit c || PyStr.mem c "._-".

(** The class [[^a-zA-Z0-9._-]]. *)
Definition unsafe_char (c : ascii) : bool := negb (safe_char c).

(** The class of the pattern [_+]. *)
Definition underscore_char (c : ascii) : bool := Ascii.eqb c "_"%char.

Definition sanitize_filename_component (name : string) : string :=
  if PyStr.is_empty name then "untitled"
  else
    let name := Re.sub_class_plus unsafe_char "_" name in
    let name := PyStr.strip "._" name in
    let name := Re.sub_class_plus underscore_char "_" name in
    if PyStr.is_empty name || PyStr.all (fun c => PyStr.mem c "._") name
    then "untitled"
    else name.

Definition max_len_base : nat := 50.

(** The stem that [derive_filename_from_url] sanitizes, from the parsed
    URL. *)
Definition name_base_of (parsed_url : UrlParse.ParseResult) : string :=
  let path_obj := Pathlib.parse (UrlParse.path parsed_url) in
  let name_base := Pathlib.stem path_obj in
  let name_base :=
    if PyStr.startswith name_base "." then PyStr.drop 1 name_base else name_base in
  if PyStr.is_empty name_base || String.eqb name_base "/" then
    let path_segments :=
      List.filter (fun seg => negb (PyStr.is_empty seg) && negb (String.eqb seg "/"))
        (Pathlib.parts path_obj) in
    match path_segments with
    | _ :: _ =>
        let name_base_segment := List.last path_segments EmptyString in
        let name_base_segment_stem := Pathlib.stem (Pathlib.parse name_base_segment) in
        if negb (PyStr.is_empty name_base_segment_stem)
           && negb (PyStr.startswith name_base_segment_stem ".")
        then name_base_segment_stem
        else if PyStr.startswith name_base_segment_stem "."
        then PyStr.drop 1 name_base_segment_stem
        else name_base_segment
    | [] =>
        let name_base := UrlParse.netloc parsed_url in
        if PyStr.is_empty name_base then "untitled_url" else name_base
    end
  else name_base.

Definition derive_filename_from_url (lib : UrlParse.Checks) (url_str : string) (extension : string)
  : result string :=
  result_bind (UrlParse.urlparse lib url_str)
    (fun parsed_url =>
       let sanitized_name_base := sanitize_filename_component (name_base_of parsed_url) in
       Returns (PyStr.take max_len_base sanitized_name_base +:+ extension)).

(** ** Programs with effects

    File writes, logging and the network are operations whose answers come
    from outside.  A program is a tree: it returns, or it performs an
    operation and continues with the answer.  A [try]/[except] around an
    operation is the continuation's case analysis on a [result]. *)

Inductive Prog (E : Type -> Type) (A : Type) : Type :=
| Ret (a : A)
| Vis (X : Type) (e : E X) (k : X -> Prog E A).

Arguments Ret {E A} a.
Arguments Vis {E A X} e k.

Fixpoint bind {E : Type -> Type} {A B : Type} (k : A -> Prog E B) (p : Prog E A) : Prog E B :=
  match p with
  | Ret a => k a
  | Vis e h => Vis e (fun x => bind k (h x))
  end.

#[global] Instance Prog_ret {E : Type -> Type} : MRet (Prog E) := @Ret E.
#[global] Instance Prog_bind {E : Type -> Type} : MBind (Prog E) := @bind E.

(** Perform one operation and return its answer. *)
Definition trigger {E : Type -> Type} {X : Type} (e : E X) : Prog E X := Vis e Ret.

Inductive level : Type := DEBUG | INFO | WARNING | ERROR | CRITICAL.

(** ** [chunk_processor.py] *)

Module ChunkProcessor.

(** The log records of [save_chunks_to_dir], one constructor for each
    [logging] call, with the values its message is formatted from. *)
Inductive LogMsg : Type :=
| MsgNoChunks (output_dir : Pathlib.PurePath)
| MsgEmptyName (i : nat) (fallback : string)
| MsgAttempt (i : nat) (output_file_path : Pathlib.PurePath)
| MsgSaved (i : nat) (name : string) (output_dir : Pathlib.PurePath)
| MsgFailed (i : nat) (base_filename : string) (output_dir : Pathlib.PurePath) (e : exn)
| MsgAllSaved (n : nat) (output_dir : Pathlib.PurePath)
| MsgSomeFailed (output_dir : Pathlib.PurePath).

Inductive Op : Type -> Type :=
| Log (lvl : level) (msg : LogMsg) : Op unit
(** [with open(path, "w", encoding=encoding, errors="replace") as f:
    f.write(content)], which returns or raises. *)
| WriteText (path : string) (encoding : string) (content : string) : Op (result unit).

(** The injected [filename_deriver]: called with the chunk and its index,
    it returns a name or raises. *)
Definition Deriver : Type := string -> nat -> result string.

(** [file_extension if file_extension.startswith('.') else f".{file_extension}"]. *)
Definition actual_extension (file_extension : string) : string :=
  if PyStr.startswith file_extension "." then file_extension
  else "." +:+ file_extension.

(** The body of the loop for the chunk at index [i]: [true] when the
    [try] block ran to its end, [false] when the [except] clause ran. *)
Definition save_chunk (output_dir : Pathlib.PurePath) (filename_deriver : Deriver)
    (file_extension encoding : string) (i : nat) (chunk_content : string) : Prog Op bool :=
  let base_filename := "chunk_" +:+ PyStr.of_nat i +:+ "_unnamed" in
  match filename_deriver chunk_content i with
  | Raises e =>
      trigger (Log ERROR (MsgFailed i base_filename output_dir e));;
      mret false
  | Returns base_filename =>
      base_filename ←
        (if PyStr.is_empty base_filename then
           let fallback := "chapter_" +:+ PyStr.of_nat (i + 1) in
           trigger (Log WARNING (MsgEmptyName i fallback));;
           mret fallback
         else mret base_filename);
      let actual_extension := actual_extension file_extension in
      let output_file_path := Pathlib.truediv output_dir (base_filename +:+ actual_extension) in
      trigger (Log DEBUG (MsgAttempt i output_file_path));;
      r ← trigger (WriteText (Pathlib.to_str output_file_path) encoding chunk_content);
      match r with
      | Returns _ =>
          trigger (Log INFO (MsgSaved i (Pathlib.name output_file_path) output_dir));;
          mret true
      | Raises e =>
          trigger (Log ERROR (MsgFailed i base_filename output_dir e));;
          mret false
      end
  end.

(** [for i, chunk_content in enumerate(chunks)], from index [i] on. *)
Fixpoint save_loop (output_dir : Pathlib.PurePath) (filename_deriver : Deriver)
    (file_extension encoding : string) (i : nat) (chunks : list string)
    (all_successful : bool) : Prog Op bool :=
  match chunks with
  | [] => mret all_successful
  | chunk_content :: chunks' =>
      ok ← save_chunk output_dir filename_deriver file_extension encoding i chunk_content;
      save_loop output_dir filename_deriver file_extension encoding (S i) chunks'
        (if ok : bool then all_successful else false)
  end.

Definition save_chunks_to_dir (chunks : list string) (output_dir : Pathlib.PurePath)
    (filename_deriver : Deriver) (file_extension encoding : string) : Prog Op bool :=
  match chunks with
  | [] =>
      trigger (Log INFO (MsgNoChunks output_dir));;
      mret true
  | _ :: _ =>
      all_successful ←
        save_loop output_dir filename_deriver file_extension encoding 0 chunks true;
      (if all_successful : bool
       then trigger (Log INFO (MsgAllSaved (length chunks) output_dir))
       else trigger (Log ERROR (MsgSomeFailed output_dir)));;
      mret all_successful
  end.

(** *** Running a program on a file system

    The file system holds files; a path names a file, and two spellings
    of a path can name the same one.  [open(path, "w", ...)] creates the
    file or empties it before anything is written, so a write that raises
    may already have changed the file; and a write that completes leaves
    the text as the encoding stores it, since [errors="replace"] replaces
    what the encoding cannot represent. *)

Record World : Type := {
  (** what each file holds, by file *)
  files : gmap string string;
  logged : list (level * LogMsg);
}.

(** How a write ends. *)
Inductive WriteAnswer : Type :=
(** the [with] block ran to its end *)
| Written
(** [open] raised and the file is as it was: not created, not emptied *)
| NotOpened (e : exn)
(** an exception was raised once the file was open: in [open] itself
    after the file was created or emptied, in [write], or on closing; the
    file is left holding [remains], nothing or a part of the text *)
| Interrupted (e : exn) (remains : string).

(** What the program cannot decide: which file a path names, what a file
    holds once a text was written to it with an encoding, and how each
    write ends, which may depend on everything that happened so far. *)
Record Env : Type := {
  file_of : string -> string;
  stored : string -> string -> string;
  write_answer : World -> string -> string -> string -> WriteAnswer;
}.

Definition handle (env : Env) {X : Type} (e : Op X) (w : World) : X * World :=
  match e in Op X return X * World with
  | Log lvl msg => (tt, {| files := files w; logged := logged w ++ [(lvl, msg)] |})
  | WriteText path encoding content =>
      match write_answer env w path encoding content with
      | Written =>
          (Returns tt,
           {| files := <[file_of env path := stored env encoding content]> (files w);
              logged := logged w |})
      | NotOpened e => (Raises e, w)
      | Interrupted e remains =>
          (Raises e,
           {| files := <[file_of env path := remains]> (files w); logged := logged w |})
      end
  end.

Fixpoint run (env : Env) {A : Type} (p : Prog Op A) (w : World) : A * World :=
  match p with
  | Ret a => (a, w)
  | Vis e k => let '(x, w') := handle env e w in run env (k x) w'
  end.

Definition start (fs : gmap string string) : World := {| files := fs; logged := [] |}.

End ChunkProcessor.

(** ** [os.path] (POSIX) *)

Module OsPath.

Definition splitext (p : string) : string * string :=
  let filenameIndex :=
    match PyStr.rfind "/" p with Some sepIndex => S sepIndex | None => 0 end in
  match PyStr.rfind "." p with
  | Some dotIndex =>
      if (filenameIndex <=? dotIndex)
         && negb (PyStr.all (fun c => Ascii.eqb c ".")
                    (PyStr.take (dotIndex - filenameIndex) (PyStr.drop filenameIndex p)))
      then (PyStr.take dotIndex p, PyStr.drop dotIndex p)
      else (p, EmptyString)
  | None => (p, EmptyString)
  end.

Definition dirname (p : string) : string :=
  let i := match PyStr.rfind "/" p with Some j => S j | None => 0 end in
  let head := PyStr.take i p in
  if negb (PyStr.is_empty head) && negb (PyStr.all (fun c => Ascii.eqb c "/") head)
  then PyStr.rstrip "/" head
  else head.

End OsPath.

(** ** [save_markdown_from_url.py] *)

Module SaveMarkdown.

Definition DEEPWIKI_BASE_URL : string := "https://deepwiki.com/".
Definition GITHUB_BASE_URL : string := "https://github.com/".

Definition default_user_agent : string :=
  "Mozilla/5.0 (Windows NT 10.0; Win64; x64) AppleWebKit/537.36 (KHTML, like Gecko) Chrome/91.0.4472.124 Safari/537.36".

Inductive LogMsg : Type :=
| MsgRegexNotCompiled
| MsgUsingDeepWiki (download_url : string)
| MsgTransformed (target_url download_url : string)
| MsgInvalidUrl
| MsgReceivedUrl (target_url : string)
| MsgDownloading (download_url : string)
| MsgDownloaded (n : nat)
| MsgTimeout (download_url : string) (request_timeout : Z)
| MsgHttpError (download_url : string)
| MsgRequestError (download_url : string)
| MsgDownloadUnexpected (download_url : string) (e : exn)
| MsgSavingHtml (save_path_html : string)
| MsgCreatedDir (html_output_dir : string)
| MsgHtmlSaved (save_path_html : string)
| MsgHtmlNotSaved (save_path_html : string)
| MsgHtmlUnexpected (e : exn)
| MsgExtracting
| MsgNoChunksFound (download_url : string)
| MsgChunksFound (n : nat)
| MsgSavingMarkdown (markdown_output_path encoding : string)
| MsgMarkdownSaved
| MsgMarkdownNotSaved (markdown_output_path : string)
| MsgMarkdownUnexpected (e : exn).

Inductive Op : Type -> Type :=
| Log (lvl : level) (msg : LogMsg) : Op unit
(** [requests.get(url, headers=headers, timeout=timeout)], then
    [raise_for_status()], then [.content]. *)
| HttpGet (url : string) (headers : gmap string string) (timeout : Z) : Op (result string)
(** [content.decode(encoding, errors='replace')]. *)
| Decode (content encoding : string) : Op (result string)
| PathExists (path : string) : Op bool
| MakeDirs (path : string) : Op (result unit)
| WriteText (path encoding content : string) : Op (result unit)
(** [save_chunks_to_path(chunks, path, sep=sep, encoding=encoding)], of
    [extract_markdown_from_html]. *)
| SaveChunksToPath (chunks : list string) (path sep encoding : string) : Op (result unit).

Section WithExtractor.

(** What [extract_markdown_from_html] provides: the compiled pattern, or
    [None] when it did not compile, and the extractor. *)
Context {Regex : Type}.
Variable MARKDOWN_CHUNK_REGEX : option Regex.
Variable extract_chunks_from_html : string -> list string.

(** [target_url.split('?', 1)[0].split('#', 1)[0]]. *)
Definition url_for_prefix_check (target_url : string) : string :=
  (PyStr.split1 "#" (PyStr.split1 "?" target_url).1).1.

(** The optional saving of the downloaded HTML. *)
Definition save_original_html (markdown_output_path : string)
    (original_html_save_path : option string) (html_content_encoding html_text : string)
  : Prog Op unit :=
  let save_path_html :=
    match original_html_save_path with
    | Some path => if PyStr.is_empty path then None else Some path
    | None => None
    end in
  let save_path_html :=
    match save_path_html with
    | Some path => path
    | None => (OsPath.splitext markdown_output_path).1 +:+ "_original.html"
    end in
  trigger (Log DEBUG (MsgSavingHtml save_path_html));;
  let handler (e : exn) : Prog Op unit :=
    match e with
    | OSError => trigger (Log WARNING (MsgHtmlNotSaved save_path_html))
    | _ => trigger (Log ERROR (MsgHtmlUnexpected e))
    end in
  let write : Prog Op unit :=
    r ← trigger (WriteText save_path_html html_content_encoding html_text);
    match r with
    | Returns _ => trigger (Log DEBUG (MsgHtmlSaved save_path_html))
    | Raises e => handler e
    end in
  let html_output_dir := OsPath.dirname save_path_html in
  if PyStr.is_empty html_output_dir then write
  else
    found ← trigger (PathExists html_output_dir);
    if found : bool then write
    else
      r ← trigger (MakeDirs html_output_dir);
      match r with
      | Raises e => handler e
      | Returns _ => trigger (Log DEBUG (MsgCreatedDir html_output_dir));; write
      end.

(** Extraction and the writing of the Markdown file. *)
Definition extract_and_save (download_url markdown_output_path sep : string)
    (html_content_encoding : string) (markdown_file_encoding : option string)
    (html_text : string) : Prog Op bool :=
  trigger (Log DEBUG MsgExtracting);;
  let markdown_chunks := extract_chunks_from_html html_text in
  (match markdown_chunks with
   | [] => trigger (Log DEBUG (MsgNoChunksFound download_url))
   | _ :: _ => trigger (Log DEBUG (MsgChunksFound (length markdown_chunks)))
   end);;
  let actual_markdown_encoding := default html_content_encoding markdown_file_encoding in
  trigger (Log DEBUG (MsgSavingMarkdown markdown_output_path actual_markdown_encoding));;
  r ← trigger (SaveChunksToPath markdown_chunks markdown_output_path sep actual_markdown_encoding);
  match r with
  | Returns _ => trigger (Log DEBUG MsgMarkdownSaved);; mret true
  | Raises OSError => trigger (Log ERROR (MsgMarkdownNotSaved markdown_output_path));; mret false
  | Raises e => trigger (Log ERROR (MsgMarkdownUnexpected e));; mret false
  end.

(** Everything after the download URL is known: the request and what
    follows it. *)
Definition download_and_save (download_url markdown_output_path : string)
    (keep_original_html : bool) (original_html_save_path : option string)
    (sep html_content_encoding : string) (markdown_file_encoding : option string)
    (request_headers : option (gmap string string)) (request_timeout : Z) : Prog Op bool :=
  trigger (Log DEBUG (MsgDownloading download_url));;
  let effective_headers : gmap string string := {[ "User-Agent" := default_user_agent ]} in
  let effective_headers :=
    match request_headers with
    | Some headers => headers ∪ effective_headers
    | None => effective_headers
    end in
  let failed (e : exn) : Prog Op bool :=
    match e with
    | RequestsTimeout =>
        trigger (Log ERROR (MsgTimeout download_url request_timeout));; mret false
    | RequestsHTTPError => trigger (Log ERROR (MsgHttpError download_url));; mret false
    | RequestException => trigger (Log ERROR (MsgRequestError download_url));; mret false
    | _ => trigger (Log ERROR (MsgDownloadUnexpected download_url e));; mret false
    end in
  r ← trigger (HttpGet download_url effective_headers request_timeout);
  match r with
  | Raises e => failed e
  | Returns content =>
      r ← trigger (Decode content html_content_encoding);
      match r with
      | Raises e => failed e
      | Returns html_text =>
          trigger (Log DEBUG (MsgDownloaded (String.length html_text)));;
          (if keep_original_html
           then save_original_html markdown_output_path original_html_save_path
                  html_content_encoding html_text
           else mret tt);;
          extract_and_save download_url markdown_output_path sep html_content_encoding
            markdown_file_encoding html_text
      end
  end.

Definition save_markdown_from_url (target_url markdown_output_path : string)
    (keep_original_html : bool) (original_html_save_path : option string)
    (sep html_content_encoding : string) (markdown_file_encoding : option string)
    (request_headers : option (gmap string string)) (request_timeout : Z) : Prog Op bool :=
  match MARKDOWN_CHUNK_REGEX with
  | None => trigger (Log CRITICAL MsgRegexNotCompiled);; mret false
  | Some _ =>
      let url_for_prefix_check := url_for_prefix_check target_url in
      let continue (download_url : string) : Prog Op bool :=
        download_and_save download_url markdown_output_path keep_original_html
          original_html_save_path sep html_content_encoding markdown_file_encoding
          request_headers request_timeout in
      if PyStr.startswith url_for_prefix_check DEEPWIKI_BASE_URL then
        let download_url := target_url in
        trigger (Log DEBUG (MsgUsingDeepWiki download_url));;
        continue download_url
      else if PyStr.startswith url_for_prefix_check GITHUB_BASE_URL then
        let path_and_query := PyStr.drop (String.length GITHUB_BASE_URL) target_url in
        let download_url := DEEPWIKI_BASE_URL +:+ path_and_query in
        trigger (Log DEBUG (MsgTransformed target_url download_url));;
        continue download_url
      else
        trigger (Log ERROR MsgInvalidUrl);;
        trigger (Log ERROR (MsgReceivedUrl target_url));;
        mret false
  end.

End WithExtractor.

(** The URL of the first request of a program, when the first operation
    that is not a log record is a request. *)
Fixpoint first_request {A : Type} (p : Prog Op A) : option string :=
  match p with
  | Ret _ => None
  | Vis e k =>
      match e in Op X return (X -> Prog Op A) -> option string with
      | Log _ _ => fun k => first_request (k tt)
      | HttpGet url _ _ => fun _ => Some url
      | _ => fun _ => None
      end k
  end.

(** A program that performs no request, whatever the answers to its
    operations. *)
Fixpoint never_requests {A : Type} (p : Prog Op A) : Prop :=
  match p with
  | Ret _ => True
  | Vis e k =>
      match e with HttpGet _ _ _ => False | _ => True end /\ forall x, never_requests (k x)
  end.

End SaveMarkdown.

(** * Vocabulary of the statements *)

(** A program all of whose runs return [v]. *)
Fixpoint always_returns {E : Type -> Type} {A : Type} (v : A) (p : Prog E A) : Prop :=
  match p with
  | Ret a => a = v
  | Vis e k => forall x, always_returns v (k x)
  end.

(** Checks that accept every netloc they are asked about. *)
Definition lenient_checks : UrlParse.Checks :=
  {| UrlParse._check_bracketed_host := fun _ => true;
     UrlParse.checknetloc_nonascii := fun _ => true |}.

(** The safe set of file names, character by character. *)
Definition safe_set : string :=
  "abcdefghijklmnopqrstuvwxyzABCDEFGHIJKLMNOPQRSTUVWXYZ0123456789._-".

(** The text that [sanitize_filename_component] tests before it returns. *)
Definition cleaned (name : string) : string :=
  Re.sub_class_plus underscore_char "_"
    (PyStr.strip "._" (Re.sub_class_plus unsafe_char "_" name)).


(** ** The chunk writer *)

Module Chunks.
Import ChunkProcessor.

(** The name a chunk is saved under, from what the deriver returned. *)
Definition base_of (i : nat) (derived : string) : string :=
  if PyStr.is_empty derived then "chapter_" +:+ PyStr.of_nat (i + 1) else derived.

(** The path a chunk is written to. *)
Definition path_of (output_dir : Pathlib.PurePath) (file_extension : string)
    (i : nat) (derived : string) : Pathlib.PurePath :=
  Pathlib.truediv output_dir (base_of i derived +:+ actual_extension file_extension).

(** The name that the error record shows when the deriver itself raised. *)
Definition unnamed (i : nat) : string := "chunk_" +:+ PyStr.of_nat i +:+ "_unnamed".

(** The index that a log record is about. *)
Definition msg_index (m : LogMsg) : option nat :=
  match m with
  | MsgEmptyName i _ | MsgAttempt i _ | MsgSaved i _ _ | MsgFailed i _ _ _ => Some i
  | _ => None
  end.

(** What the log says about the chunk at index [i]. *)
Definition saved (output_dir : Pathlib.PurePath) (i : nat) (l : list (level * LogMsg)) : Prop :=
  exists name, (INFO, MsgSaved i name output_dir) ∈ l.

Definition failed (output_dir : Pathlib.PurePath) (i : nat) (l : list (level * LogMsg)) : Prop :=
  exists base e, (ERROR, MsgFailed i base output_dir e) ∈ l.

Definition attempted (i : nat) (path : Pathlib.PurePath) (l : list (level * LogMsg)) : Prop :=
  (DEBUG, MsgAttempt i path) ∈ l.

(** All records of [l] are about indices from [lo] up to [hi], excluded. *)
Definition indices_within (lo hi : nat) (l : list (level * LogMsg)) : Prop :=
  forall lm, lm ∈ l -> exists k, msg_index lm.2 = Some k /\ lo <= k < hi.

Definition add_log (w : World) (lm : level * LogMsg) : World :=
  {| files := files w; logged := logged w ++ [lm] |}.

(** The file that the path of a chunk names. *)
Definition file_at (env : Env) (path : Pathlib.PurePath) : string :=
  file_of env (Pathlib.to_str path).

Definition store (w : World) (file content : string) : World :=
  {| files := <[file := content]> (files w); logged := logged w |}.

(** The world in which the chunk at index [i] is written: the records of
    the fallback, if any, and of the attempt are in the log. *)
Definition before_write (output_dir : Pathlib.PurePath) (file_extension : string)
    (i : nat) (derived : string) (w : World) : World :=
  add_log
    (if PyStr.is_empty derived
     then add_log w (WARNING, MsgEmptyName i (base_of i derived))
     else w)
    (DEBUG, MsgAttempt i (path_of output_dir file_extension i derived)).

(** The state of the loop after the chunks [cs], the first of which has
    index [i]: what the log gained, the flag, and the files. *)
Definition loop_post (env : Env) (dir : Pathlib.PurePath) (der : Deriver) (ext enc : string)
    (i : nat) (cs : list string) (acc : bool) (w : World) (ok : bool) (w' : World)
    (new : list (level * LogMsg)) : Prop :=
  logged w' = logged w ++ new
  /\ indices_within i (i + length cs) new
  /\ (forall k, i <= k < i + length cs ->
        (saved dir k new /\ ~ failed dir k new) \/ (failed dir k new /\ ~ saved dir k new))
  /\ (ok = true <-> acc = true /\ forall k, i <= k < i + length cs -> saved dir k new)
  /\ (ok = false -> acc = false \/ exists k, i <= k < i + length cs /\ failed dir k new)
  /\ (forall f,
        files w' !! f = files w !! f
        \/ exists k c n,
             i <= k /\ cs !! (k - i) = Some c /\ der c k = Returns n
             /\ f = file_at env (path_of dir ext k n) /\ is_Some (files w' !! f))
  /\ (forall k c e,
        i <= k -> cs !! (k - i) = Some c -> der c k = Raises e ->
        (ERROR, MsgFailed k (unnamed k) dir e) ∈ new /\ forall path, ~ attempted k path new)
  /\ (forall k c n,
        i <= k -> cs !! (k - i) = Some c -> der c k = Returns n ->
        forall path, attempted k path new <-> path = path_of dir ext k n)
  /\ (forall k c n,
        i <= k -> cs !! (k - i) = Some c -> der c k = Returns n -> saved dir k new ->
        (forall k' c' n',
           k < k' -> cs !! (k' - i) = Some c' -> der c' k' = Returns n' ->
           file_at env (path_of dir ext k' n') <> file_at env (path_of dir ext k n)) ->
        files w' !! file_at env (path_of dir ext k n) = Some (stored env enc c)).

End Chunks.

(** ** Sample inputs for the chunk writer *)

(** A file system in which every path names a file of its own and every
    encoding stores the text as it is. *)
Definition plain_files
    (answer : ChunkProcessor.World -> string -> string -> string -> ChunkProcessor.WriteAnswer)
  : ChunkProcessor.Env :=
  {| ChunkProcessor.file_of := fun path => path;
     ChunkProcessor.stored := fun _ text => text;
     ChunkProcessor.write_answer := answer |}.

(** An environment in which every write succeeds. *)
Definition writable : ChunkProcessor.Env := plain_files (fun _ _ _ _ => ChunkProcessor.Written).

(** An environment in which ["out/b.md"] cannot be opened. *)
Definition b_unwritable : ChunkProcessor.Env :=
  plain_files (fun _ path _ _ =>
                 if String.eqb path "out/b.md" then ChunkProcessor.NotOpened OSError
                 else ChunkProcessor.Written).

(** An environment in which ["out/b.md"] is opened, and the write to it
    then fails. *)
Definition b_interrupted : ChunkProcessor.Env :=
  plain_files (fun _ path _ _ =>
                 if String.eqb path "out/b.md" then ChunkProcessor.Interrupted OSError ""
                 else ChunkProcessor.Written).

(** An environment in which ["out/sub/../a.md"] is another spelling of
    ["out/a.md"], the encoding ["ascii"] stores a question mark for every
    character that is not ASCII, and every write succeeds. *)
Definition aliasing_ascii : ChunkProcessor.Env :=
  {| ChunkProcessor.file_of :=
       fun path => if String.eqb path "out/sub/../a.md" then "out/a.md" else path;
     ChunkProcessor.stored :=
       fun encoding text =>
         if String.eqb encoding "ascii"
         then String.string_of_list_ascii
                (List.map (fun c => if PyStr.isascii c then c else "?"%char)
                   (String.list_ascii_of_string text))
         else text;
     ChunkProcessor.write_answer := fun _ _ _ _ => ChunkProcessor.Written |}.

(** Derivers: the chunk itself as the name; no name at all; an exception
    for the chunk at index 1. *)
Definition name_is_chunk : ChunkProcessor.Deriver := fun chunk _ => Returns chunk.

Definition no_name : ChunkProcessor.Deriver := fun _ _ => Returns "".


(** ** Names that the sanitizer leaves alone *)

(** ["__" in s]. *)
Fixpoint has_double_underscore (s : string) : bool :=
  match s with
  | EmptyString => false
  | String c s' =>
      (Ascii.eqb c "_" && match s' with String d _ => Ascii.eqb d "_" | EmptyString => false end)
      || has_double_underscore s'
  end.

(** A name that is not empty, holds only safe characters, neither starts
    nor ends with a dot or an underscore, and has no two underscores in a
    row. *)
Definition clean_name (s : string) : Prop :=
  PyStr.is_empty s = false
  /\ PyStr.all safe_char s = true
  /\ (forall c, PyStr.first s = Some c -> PyStr.mem c "._" = false)
  /\ (forall c, PyStr.last s = Some c -> PyStr.mem c "._" = false)
  /\ has_double_underscore s = false.

(** ** The records of one chunk *)

Module ChunkRecords.
Import ChunkProcessor Chunks.

(** The records that the turn of the loop for the chunk [c] at index [k]
    can add to the log. *)
Definition record_of_turn (dir : Pathlib.PurePath) (der : Deriver) (ext : string)
    (k : nat) (c : string) (lm : level * LogMsg) : Prop :=
  match der c k with
  | Raises e => lm = (ERROR, MsgFailed k (unnamed k) dir e)
  | Returns n =>
      (PyStr.is_empty n = true /\ lm = (WARNING, MsgEmptyName k (base_of k n)))
      \/ lm = (DEBUG, MsgAttempt k (path_of dir ext k n))
      \/ lm = (INFO, MsgSaved k (Pathlib.name (path_of dir ext k n)) dir)
      \/ exists e, lm = (ERROR, MsgFailed k (base_of k n) dir e)
  end.

(** The paths of the chunks name pairwise different files. *)
Definition distinct_files (env : Env) (l : list (level * LogMsg)) : Prop :=
  forall k k' path path',
    k <> k' -> attempted k path l -> attempted k' path' l ->
    file_at env path <> file_at env path'.

End ChunkRecords.

(** ** Runs of [save_markdown_from_url] *)

Module Runs.
Import SaveMarkdown.

(** One operation of a run, with the answer it got. *)
Inductive Event : Type :=
| EvLog (lvl : level) (msg : LogMsg)
| EvGet (url : string) (headers : gmap string string) (timeout : Z) (answer : result string)
| EvDecode (content encoding : string) (answer : result string)
| EvExists (path : string) (answer : bool)
| EvMakeDirs (path : string) (answer : result unit)
| EvWrite (path encoding content : string) (answer : result unit)
| EvSave (chunks : list string) (path sep encoding : string) (answer : result unit).

Definition event_of {X : Type} (e : Op X) : X -> Event :=
  match e in Op X return X -> Event with
  | Log lvl msg => fun _ => EvLog lvl msg
  | HttpGet url headers timeout => EvGet url headers timeout
  | Decode content encoding => EvDecode content encoding
  | PathExists path => EvExists path
  | MakeDirs path => EvMakeDirs path
  | WriteText path encoding content => EvWrite path encoding content
  | SaveChunksToPath chunks path sep encoding => EvSave chunks path sep encoding
  end.

(** [runs p t a]: the program [p] can perform the operations of [t], with
    the answers recorded there, and then return [a]. *)
Fixpoint runs {A : Type} (p : Prog Op A) (t : list Event) (a : A) : Prop :=
  match p with
  | Ret a' => t = [] /\ a' = a
  | Vis e k => exists x t', t = event_of e x :: t' /\ runs (k x) t' a
  end.

Definition is_log (ev : Event) : Prop :=
  match ev with EvLog _ _ => True | _ => False end.

(** The operations on the file system. *)
Definition is_file_event (ev : Event) : Prop :=
  match ev with
  | EvExists _ _ | EvMakeDirs _ _ | EvWrite _ _ _ _ | EvSave _ _ _ _ _ => True
  | _ => False
  end.

(** The URLs requested in a run, in order. *)
Fixpoint requested (t : list Event) : list string :=
  match t with
  | [] => []
  | EvGet url _ _ _ :: t' => url :: requested t'
  | _ :: t' => requested t'
  end.

(** The headers of the request. *)
Definition effective_headers (request_headers : option (gmap string string))
  : gmap string string :=
  match request_headers with
  | Some headers => headers ∪ {[ "User-Agent" := default_user_agent ]}
  | None => {[ "User-Agent" := default_user_agent ]}
  end.

(** The path that the downloaded HTML is saved to. *)
Definition html_path (markdown_output_path : string) (original_html_save_path : option string)
  : string :=
  match original_html_save_path with
  | Some path =>
      if PyStr.is_empty path
      then (OsPath.splitext markdown_output_path).1 +:+ "_original.html"
      else path
  | None => (OsPath.splitext markdown_output_path).1 +:+ "_original.html"
  end.

(** The operations that saving the HTML to [path] can perform. *)
Definition html_event (path encoding html_text : string) (ev : Event) : Prop :=
  match ev with
  | EvLog _ _ => True
  | EvExists p _ | EvMakeDirs p _ =>
      p = OsPath.dirname path /\ PyStr.is_empty (OsPath.dirname path) = false
  | EvWrite p e c _ => p = path /\ e = encoding /\ c = html_text
  | _ => False
  end.

(** The operations of the last step: log records and the writing of the
    Markdown file, which got the answer [answer]. *)
Definition markdown_event (chunks : list string) (path sep encoding : string)
    (answer : result unit) (ev : Event) : Prop :=
  match ev with
  | EvLog _ _ => True
  | EvSave c p s e a => c = chunks /\ p = path /\ s = sep /\ e = encoding /\ a = answer
  | _ => False
  end.

Section Shapes.

Context (extract_chunks_from_html : string -> list string).
Context (markdown_output_path : string) (keep_original_html : bool)
  (original_html_save_path : option string) (sep html_content_encoding : string)
  (markdown_file_encoding : option string)
  (request_headers : option (gmap string string)) (request_timeout : Z).

(** What a run looks like once the page was decoded to [html_text]: a log
    record, the operations of the HTML saving if it was asked for, then the
    operations of the Markdown saving. *)
Definition decoded_shape (html_text : string) (t : list Event) (b : bool) : Prop :=
  exists lg t_html t_md answer,
    t = lg :: t_html ++ t_md
    /\ is_log lg
    /\ (if keep_original_html
        then Forall (html_event (html_path markdown_output_path original_html_save_path)
                       html_content_encoding html_text) t_html
        else t_html = [])
    /\ Forall (markdown_event (extract_chunks_from_html html_text) markdown_output_path sep
                 (default html_content_encoding markdown_file_encoding) answer) t_md
    /\ EvSave (extract_chunks_from_html html_text) markdown_output_path sep
         (default html_content_encoding markdown_file_encoding) answer ∈ t_md
    /\ (b = true <-> answer = Returns tt).

(** What a run looks like from the request on. *)
Definition requested_shape (download_url : string) (t : list Event) (b : bool) : Prop :=
  exists lg answer t1,
    t = lg :: EvGet download_url (effective_headers request_headers) request_timeout answer
             :: t1
    /\ is_log lg
    /\ match answer with
       | Raises _ => b = false /\ Forall is_log t1
       | Returns content =>
           exists decoded t2,
             t1 = EvDecode content html_content_encoding decoded :: t2
             /\ match decoded with
                | Raises _ => b = false /\ Forall is_log t2
                | Returns html_text => decoded_shape html_text t2 b
                end
       end.

End Shapes.

End Runs.

(** ** Sample runs of [save_markdown_from_url] *)

(** A call whose request times out. *)
Definition timeout_call : Prog SaveMarkdown.Op bool :=
  SaveMarkdown.save_markdown_from_url (Some tt) (fun _ => ["c1"])
    "https://deepwiki.com/Org/Repo" "out/repo.md" true None "---" "utf-8" None None 30.

Definition timeout_run : list Runs.Event :=
  [ Runs.EvLog DEBUG (SaveMarkdown.MsgUsingDeepWiki "https://deepwiki.com/Org/Repo");
    Runs.EvLog DEBUG (SaveMarkdown.MsgDownloading "https://deepwiki.com/Org/Repo");
    Runs.EvGet "https://deepwiki.com/Org/Repo" (Runs.effective_headers None) 30
      (Raises RequestsTimeout);
    Runs.EvLog ERROR (SaveMarkdown.MsgTimeout "https://deepwiki.com/Org/Repo" 30) ].

(** A call in which the page is fetched, the HTML cannot be written, and
    the Markdown is saved. *)
Definition html_unsaved_call : Prog SaveMarkdown.Op bool :=
  SaveMarkdown.save_markdown_from_url (Some tt) (fun _ => ["c1"])
    "https://github.com/Org/Repo?tab=readme" "out/repo.md" true None "---" "utf-8" None
    (Some {[ "Accept" := "text/html" ]}) 30.

Definition html_unsaved_run : list Runs.Event :=
  [ Runs.EvLog DEBUG
      (SaveMarkdown.MsgTransformed "https://github.com/Org/Repo?tab=readme"
         "https://deepwiki.com/Org/Repo?tab=readme");
    Runs.EvLog DEBUG (SaveMarkdown.MsgDownloading "https://deepwiki.com/Org/Repo?tab=readme");
    Runs.EvGet "https://deepwiki.com/Org/Repo?tab=readme"
      (Runs.effective_headers (Some {[ "Accept" := "text/html" ]})) 30 (Returns "raw");
    Runs.EvDecode "raw" "utf-8" (Returns "<html>");
    Runs.EvLog DEBUG (SaveMarkdown.MsgDownloaded 6);
    Runs.EvLog DEBUG (SaveMarkdown.MsgSavingHtml "out/repo_original.html");
    Runs.EvExists "out" true;
    Runs.EvWrite "out/repo_original.html" "utf-8" "<html>" (Raises OSError);
    Runs.EvLog WARNING (SaveMarkdown.MsgHtmlNotSaved "out/repo_original.html");
    Runs.EvLog DEBUG SaveMarkdown.MsgExtracting;
    Runs.EvLog DEBUG (SaveMarkdown.MsgChunksFound 1);
    Runs.EvLog DEBUG (SaveMarkdown.MsgSavingMarkdown "out/repo.md" "utf-8");
    Runs.EvSave ["c1"] "out/repo.md" "---" "utf-8" (Returns tt);
    Runs.EvLog DEBUG SaveMarkdown.MsgMarkdownSaved ].

(** A call that keeps no HTML, finds no chunk, and cannot write the
    Markdown. *)
Definition markdown_unsaved_call : Prog SaveMarkdown.Op bool :=
  SaveMarkdown.save_markdown_from_url (Some tt) (fun _ => [])
    "https://deepwiki.com/Org/Repo#top" "repo.md" false (Some "page.html") "---" "latin-1"
    (Some "utf-8") None 10.

Definition markdown_unsaved_run : list Runs.Event :=
  [ Runs.EvLog DEBUG (SaveMarkdown.MsgUsingDeepWiki "https://deepwiki.com/Org/Repo#top");
    Runs.EvLog DEBUG (SaveMarkdown.MsgDownloading "https://deepwiki.com/Org/Repo#top");
    Runs.EvGet "https://deepwiki.com/Org/Repo#top" (Runs.effective_headers None) 10
      (Returns "raw");
    Runs.EvDecode "raw" "latin-1" (Returns "<html>");
    Runs.EvLog DEBUG (SaveMarkdown.MsgDownloaded 6);
    Runs.EvLog DEBUG SaveMarkdown.MsgExtracting;
    Runs.EvLog DEBUG (SaveMarkdown.MsgNoChunksFound "https://deepwiki.com/Org/Repo#top");
    Runs.EvLog DEBUG (SaveMarkdown.MsgSavingMarkdown "repo.md" "utf-8");
    Runs.EvSave [] "repo.md" "---" "utf-8" (Raises OSError);
    Runs.EvLog ERROR (SaveMarkdown.MsgMarkdownNotSaved "repo.md") ].

(** * The model against CPython 3.11 *)

Example sanitize_runs : sanitize_filename_component "a b//c__d.." = "a_b_c_d".
Proof. reflexivity. Qed.

Example sanitize_only_separators : sanitize_filename_component "//" = "untitled".
Proof. reflexivity. Qed.

Example urlparse_full :
  UrlParse.urlparse lenient_checks "  HTTP://us:pw@[::1]:80/Org/a;b/c;d?q#f"
  = Returns {| UrlParse.scheme := "http"; UrlParse.netloc := "us:pw@[::1]:80";
               UrlParse.path := "/Org/a;b/c"; UrlParse.params := "d";
               UrlParse.query := "q"; UrlParse.fragment := "f" |}.
Proof. reflexivity. Qed.

Example urlparse_no_scheme :
  UrlParse.urlparse lenient_checks "1http://x"
  = Returns {| UrlParse.scheme := ""; UrlParse.netloc := "";
               UrlParse.path := "1http://x"; UrlParse.params := "";
               UrlParse.query := ""; UrlParse.fragment := "" |}.
Proof. reflexivity. Qed.

Example urlparse_unmatched_bracket lib : UrlParse.urlparse lib "//a]b/" = Raises ValueError.
Proof. reflexivity. Qed.

Example pathlib_parse_root2 :
  Pathlib.parse "//a" = {| Pathlib.root := "//"; Pathlib.parts := ["//"; "a"] |}.
Proof. reflexivity. Qed.

Example pathlib_parse_dots :
  Pathlib.parse "/a/./b/." = {| Pathlib.root := "/"; Pathlib.parts := ["/"; "a"; "b"] |}.
Proof. reflexivity. Qed.

Example pathlib_stems :
  List.map (fun s => Pathlib.stem (Pathlib.parse s)) ["a.."; ".."; ".bashrc"; "a.b.c"; "/"; "x/"]
  = ["a.."; ".."; ".bashrc"; "a.b"; ""; "x"].
Proof. reflexivity. Qed.

Example pathlib_truediv :
  List.map (fun '(d, k) => Pathlib.to_str (Pathlib.truediv (Pathlib.parse d) k))
    [("/out", "x.md"); ("out", "/abs"); ("", ""); ("a", "./b//c/")]
  = ["/out/x.md"; "/abs"; "."; "a/b/c"].
Proof. reflexivity. Qed.

Example ospath_splitext :
  List.map OsPath.splitext ["a/b.md"; "a.d/b"; ".bashrc"; "x/..a.b"; "a."]
  = [("a/b", ".md"); ("a.d/b", ""); (".bashrc", ""); ("x/..a", ".b"); ("a", ".")].
Proof. reflexivity. Qed.

Example ospath_dirname :
  List.map OsPath.dirname ["a/b.md"; "/x"; "//x"; "x"; "a//b"] = ["a"; "/"; "//"; ""; "a"].
Proof. reflexivity. Qed.

Example of_nat_decimal : List.map PyStr.of_nat [0; 7; 10; 123] = ["0"; "7"; "10"; "123"].
Proof. reflexivity. Qed.

Example derive_examples lib :
  List.map (fun u => derive_filename_from_url lib u ".md")
    [""; "https://deepwiki.com"; "https://deepwiki.com//"; "https://deepwiki.com/Org/.hidden";
     "https://deepwiki.com/Org/Repo?x=1#frag"]
  = List.map Returns ["untitled_url.md"; "deepwiki.com.md"; "untitled.md"; "hidden.md"; "Repo.md"].
Proof. reflexivity. Qed.

(** * Facts about the string methods *)

Lemma append_nil_l t : "" +:+ t = t.
Proof. reflexivity. Qed.

Lemma append_cons c s t : String c s +:+ t = String c (s +:+ t).
Proof. reflexivity. Qed.

Lemma startswith_drop s p :
  PyStr.startswith s p = true -> s = p +:+ PyStr.drop (String.length p) s.
Proof.
  revert s. induction p as [|d p IH]; intros [|c s]; simpl; try done.
  intros [Hc Hs]%andb_prop. apply Ascii.eqb_eq in Hc as ->.
  change (String d s = String d (p +:+ PyStr.drop (String.length p) s)).
  f_equal. by apply IH.
Qed.

Lemma startswith_append p rest : PyStr.startswith (p +:+ rest) p = true.
Proof.
  induction p as [|d p IH]; simpl; [done|]. by rewrite Ascii.eqb_refl.
Qed.

Lemma startswith_take n s p :
  PyStr.startswith (PyStr.take n s) p = true -> PyStr.startswith s p = true.
Proof.
  revert n s. induction p as [|d p IH]; intros n s; [by destruct s|].
  destruct n as [|n], s as [|c s]; simpl; try done.
  intros [Hc Hs]%andb_prop. rewrite Hc. simpl. by apply (IH n).
Qed.

Lemma split1_fst_startswith c s p :
  PyStr.startswith (PyStr.split1 c s).1 p = true -> PyStr.startswith s p = true.
Proof.
  unfold PyStr.split1. destruct (PyStr.find c s); simpl; [apply startswith_take | done].
Qed.

Lemma length_take_le n s : String.length (PyStr.take n s) <= n.
Proof.
  revert s. induction n as [|n IH]; intros [|c s]; simpl; try lia.
  specialize (IH s). lia.
Qed.

Lemma take_is_empty n s :
  PyStr.is_empty s = false -> 0 < n -> PyStr.is_empty (PyStr.take n s) = false.
Proof. destruct s, n; simpl; try done; lia. Qed.

Lemma all_take p n s : PyStr.all p s = true -> PyStr.all p (PyStr.take n s) = true.
Proof.
  revert s. induction n as [|n IH]; intros [|c s]; simpl; try done.
  intros [-> Hs]%andb_prop. simpl. by apply IH.
Qed.

Lemma first_take n s : 0 < n -> PyStr.first (PyStr.take n s) = PyStr.first s.
Proof. destruct n, s; simpl; try done; lia. Qed.



Lemma length_append s t : String.length (s +:+ t) = String.length s + String.length t.
Proof. induction s as [|c s IH]; simpl; [done | by rewrite IH]. Qed.

Lemma append_inv_tail s1 s2 t : s1 +:+ t = s2 +:+ t -> s1 = s2.
Proof.
  revert s2. induction s1 as [|c s1 IH]; intros [|d s2] H; simpl in *; try done.
  - assert (Hl := f_equal String.length H). rewrite !length_append in Hl. simpl in Hl. lia.
  - assert (Hl := f_equal String.length H). rewrite !length_append in Hl. simpl in Hl. lia.
  - rewrite !append_cons in H. injection H as -> H. f_equal. by apply IH.
Qed.

Lemma all_append p s t : PyStr.all p (s +:+ t) = PyStr.all p s && PyStr.all p t.
Proof.
  induction s as [|c s IH]; [done|].
  rewrite append_cons. simpl. rewrite IH. by rewrite andb_assoc.
Qed.

Lemma last_cons c s :
  PyStr.last (String c s) = match PyStr.last s with Some d => Some d | None => Some c end.
Proof. reflexivity. Qed.

Lemma last_append s t :
  PyStr.last (s +:+ t) = match PyStr.last t with Some d => Some d | None => PyStr.last s end.
Proof.
  induction s as [|c s IH]; [rewrite append_nil_l; by destruct (PyStr.last t)|].
  rewrite append_cons, !last_cons, IH. by destruct (PyStr.last t), (PyStr.last s).
Qed.

Lemma last_None s : PyStr.last s = None -> s = "".
Proof. destruct s as [|c s]; [done|]. rewrite last_cons. by destruct (PyStr.last s). Qed.

(** *** [lstrip], [rstrip], [strip] *)

Lemma lstrip_split chars s :
  exists l, s = l +:+ PyStr.lstrip chars s /\ PyStr.all (fun c => PyStr.mem c chars) l = true.
Proof.
  induction s as [|c s [l [Hs Hl]]]; [by exists ""|]. simpl.
  destruct (PyStr.mem c chars) eqn:Hc; [|by exists ""].
  exists (String c l). rewrite append_cons. simpl. rewrite Hc, Hl. split; [by f_equal | done].
Qed.

Lemma rstrip_split chars s :
  exists r, s = PyStr.rstrip chars s +:+ r /\ PyStr.all (fun c => PyStr.mem c chars) r = true.
Proof.
  induction s as [|c s [r [Hs Hr]]]; [by exists ""|]. simpl.
  destruct (PyStr.rstrip chars s) as [|d t] eqn:Ht.
  - rewrite append_nil_l in Hs. subst r.
    destruct (PyStr.mem c chars) eqn:Hc.
    + exists (String c s). simpl. by rewrite Hc, Hr.
    + exists s. by rewrite append_cons.
  - exists r. rewrite append_cons. split; [by f_equal | done].
Qed.

Lemma first_lstrip chars s c :
  PyStr.first (PyStr.lstrip chars s) = Some c -> PyStr.mem c chars = false.
Proof.
  induction s as [|d s IH]; simpl; [done|].
  destruct (PyStr.mem d chars) eqn:Hd; [done|]. simpl. by intros [= <-].
Qed.

Lemma first_rstrip chars s c :
  PyStr.first (PyStr.rstrip chars s) = Some c -> PyStr.first s = Some c.
Proof.
  destruct s as [|d s]; simpl; [done|].
  destruct (PyStr.rstrip chars s); [by destruct (PyStr.mem d chars) | done].
Qed.

Lemma last_rstrip chars s c :
  PyStr.last (PyStr.rstrip chars s) = Some c -> PyStr.mem c chars = false.
Proof.
  induction s as [|d s IH]; simpl; [done|].
  destruct (PyStr.rstrip chars s) as [|e t] eqn:Ht.
  - destruct (PyStr.mem d chars) eqn:Hd; [done|]. simpl. by intros [= <-].
  - rewrite last_cons. destruct (PyStr.last (String e t)) eqn:He; [done|].
    by apply last_None in He.
Qed.

Lemma all_lstrip p chars s :
  PyStr.all p s = true -> PyStr.all p (PyStr.lstrip chars s) = true.
Proof.
  destruct (lstrip_split chars s) as [l [Hs _]]. rewrite Hs at 1.
  rewrite all_append. by intros [_ ?]%andb_prop.
Qed.

Lemma all_rstrip p chars s :
  PyStr.all p s = true -> PyStr.all p (PyStr.rstrip chars s) = true.
Proof.
  destruct (rstrip_split chars s) as [r [Hs _]]. rewrite Hs at 1.
  rewrite all_append. by intros [? _]%andb_prop.
Qed.

(** [strip] removes a prefix and a suffix made of [chars], and what is left
    neither starts nor ends with one of them. *)
Lemma strip_spec chars s :
  exists l r,
    s = l +:+ PyStr.strip chars s +:+ r
    /\ PyStr.all (fun c => PyStr.mem c chars) l = true
    /\ PyStr.all (fun c => PyStr.mem c chars) r = true
    /\ (forall c, PyStr.first (PyStr.strip chars s) = Some c -> PyStr.mem c chars = false)
    /\ (forall c, PyStr.last (PyStr.strip chars s) = Some c -> PyStr.mem c chars = false).
Proof.
  unfold PyStr.strip.
  destruct (lstrip_split chars s) as [l [Hs Hl]].
  destruct (rstrip_split chars (PyStr.lstrip chars s)) as [r [Ht Hr]].
  exists l, r. split_and!; try done.
  - by rewrite <- Ht.
  - intros c Hc. by eapply first_lstrip, first_rstrip.
  - apply last_rstrip.
Qed.

(** *** [re.sub] on a class under [+] *)

Lemma sub_go_nil cls repl f : Re.sub_go cls repl f "" = "".
Proof. reflexivity. Qed.

Lemma sub_go_keep cls repl f c s :
  cls c = false -> Re.sub_go cls repl f (String c s) = String c (Re.sub_go cls repl false s).
Proof. intros H. simpl. by rewrite H. Qed.

Lemma sub_go_inside cls repl u s :
  PyStr.all cls u = true -> Re.sub_go cls repl true (u +:+ s) = Re.sub_go cls repl true s.
Proof.
  induction u as [|c u IH]; [done|]. cbn [PyStr.all]. intros [Hc Hu]%andb_prop.
  rewrite append_cons. cbn [Re.sub_go]. rewrite Hc. by apply IH.
Qed.

Lemma sub_go_resume cls repl s :
  (forall c, PyStr.first s = Some c -> cls c = false) ->
  Re.sub_go cls repl true s = Re.sub_go cls repl false s.
Proof. destruct s as [|c s]; [done|]. intros H. simpl. by rewrite (H c). Qed.

(** A maximal run of the class becomes one replacement. *)
Lemma sub_class_plus_run cls repl u s :
  u <> "" -> PyStr.all cls u = true ->
  (forall c, PyStr.first s = Some c -> cls c = false) ->
  Re.sub_class_plus cls repl (u +:+ s) = repl +:+ Re.sub_class_plus cls repl s.
Proof.
  intros Hne Hu Hs. destruct u as [|c u]; [done|]. simpl in Hu.
  apply andb_prop in Hu as [Hc Hu]. unfold Re.sub_class_plus.
  rewrite append_cons. simpl. rewrite Hc. f_equal.
  rewrite sub_go_inside by done. by apply sub_go_resume.
Qed.

Lemma sub_go_all_from_class (p : ascii -> bool) cls repl f s :
  (forall c, cls c = false -> p c = true) -> PyStr.all p repl = true ->
  PyStr.all p (Re.sub_go cls repl f s) = true.
Proof.
  intros Hp Hr. revert f. induction s as [|c s IH]; intros f; simpl; [done|].
  destruct (cls c) eqn:Hc.
  - destruct f; [done|]. rewrite all_append, Hr. by apply IH.
  - simpl. rewrite (Hp c Hc). by apply IH.
Qed.

Lemma sub_go_all_preserved (p : ascii -> bool) cls repl f s :
  PyStr.all p s = true -> PyStr.all p repl = true ->
  PyStr.all p (Re.sub_go cls repl f s) = true.
Proof.
  intros Hs Hr. revert f Hs. induction s as [|c s IH]; intros f; simpl; [done|].
  intros [Hc Hs]%andb_prop. destruct (cls c).
  - destruct f; [by apply IH|]. rewrite all_append, Hr. by apply IH.
  - simpl. rewrite Hc. by apply IH.
Qed.

Lemma sub_go_last cls repl f s c :
  PyStr.last s = Some c -> cls c = false ->
  PyStr.last (Re.sub_go cls repl f s) = Some c.
Proof.
  intros Hl Hc. revert f Hl. induction s as [|d s IH]; intros f; [done|].
  rewrite last_cons. destruct (PyStr.last s) as [e|] eqn:He.
  - intros [= ->].
    assert (IH' : forall f, PyStr.last (Re.sub_go cls repl f s) = Some c)
      by (intros f'; by apply IH).
    cbn [Re.sub_go]. destruct (cls d).
    + destruct f; [by apply IH'|]. by rewrite last_append, IH'.
    + by rewrite last_cons, IH'.
  - intros [= ->]. apply last_None in He as ->. simpl. by rewrite Hc.
Qed.

(** * [sanitize_filename_component] *)

Lemma safe_underscore : PyStr.all safe_char "_" = true.
Proof. reflexivity. Qed.

Lemma unsafe_false_safe c : unsafe_char c = false -> safe_char c = true.
Proof. unfold unsafe_char. by intros ->%negb_false_iff. Qed.

Lemma not_edge_not_underscore c : PyStr.mem c "._" = false -> underscore_char c = false.
Proof.
  unfold underscore_char. simpl.
  by intros [_ [H _]%orb_false_elim]%orb_false_elim.
Qed.

Lemma sanitize_unfold name :
  sanitize_filename_component name =
    if PyStr.is_empty name then "untitled"
    else if PyStr.is_empty (cleaned name) || PyStr.all (fun c => PyStr.mem c "._") (cleaned name)
         then "untitled"
         else cleaned name.
Proof. reflexivity. Qed.

Lemma cleaned_safe name : PyStr.all safe_char (cleaned name) = true.
Proof.
  unfold cleaned, Re.sub_class_plus, PyStr.strip.
  apply sub_go_all_preserved; [|done].
  apply all_rstrip, all_lstrip, sub_go_all_from_class; [apply unsafe_false_safe | done].
Qed.

Lemma cleaned_first name c :
  PyStr.first (cleaned name) = Some c -> PyStr.mem c "._" = false.
Proof.
  unfold cleaned.
  destruct (strip_spec "._" (Re.sub_class_plus unsafe_char "_" name))
    as (_ & _ & _ & _ & _ & Hfirst & _).
  destruct (PyStr.strip "._" _) as [|d b]; [done|].
  specialize (Hfirst d eq_refl). unfold Re.sub_class_plus.
  rewrite sub_go_keep by by apply not_edge_not_underscore. simpl. by intros [= <-].
Qed.

Lemma cleaned_last name c :
  PyStr.last (cleaned name) = Some c -> PyStr.mem c "._" = false.
Proof.
  unfold cleaned.
  destruct (strip_spec "._" (Re.sub_class_plus unsafe_char "_" name))
    as (_ & _ & _ & _ & _ & _ & Hlast).
  destruct (PyStr.last (PyStr.strip "._" (Re.sub_class_plus unsafe_char "_" name)))
    as [d|] eqn:Hd.
  - specialize (Hlast d eq_refl). unfold Re.sub_class_plus.
    rewrite (sub_go_last _ _ _ _ d) by (done || by apply not_edge_not_underscore).
    by intros [= <-].
  - apply last_None in Hd as ->. done.
Qed.

Lemma sanitize_nonempty name : PyStr.is_empty (sanitize_filename_component name) = false.
Proof.
  rewrite sanitize_unfold. destruct (PyStr.is_empty name); [done|].
  destruct (PyStr.is_empty (cleaned name)) eqn:He; [done|]. simpl.
  by destruct (PyStr.all _ (cleaned name)).
Qed.

Lemma sanitize_safe name : PyStr.all safe_char (sanitize_filename_component name) = true.
Proof.
  rewrite sanitize_unfold. destruct (PyStr.is_empty name); [done|].
  destruct (_ || _); [done | apply cleaned_safe].
Qed.

Lemma sanitize_first name c :
  PyStr.first (sanitize_filename_component name) = Some c -> PyStr.mem c "._" = false.
Proof.
  rewrite sanitize_unfold. destruct (PyStr.is_empty name); [by intros [= <-]|].
  destruct (_ || _); [by intros [= <-] | apply cleaned_first].
Qed.

Lemma sanitize_last name c :
  PyStr.last (sanitize_filename_component name) = Some c -> PyStr.mem c "._" = false.
Proof.
  rewrite sanitize_unfold. destruct (PyStr.is_empty name); [by intros [= <-]|].
  destruct (_ || _); [by intros [= <-] | apply cleaned_last].
Qed.

Lemma all_impl (p q : ascii -> bool) s :
  (forall c, p c = true -> q c = true) -> PyStr.all p s = true -> PyStr.all q s = true.
Proof.
  intros Hpq. induction s as [|d s IH]; simpl; [done|]. intros [Hd Hs]%andb_prop.
  rewrite (Hpq d Hd). by apply IH.
Qed.

(** What collapsing returns has no two underscores in a row. *)
Lemma collapse_no_double f s :
  has_double_underscore (Re.sub_go underscore_char "_" f s) = false
  /\ (f = true ->
      forall d, PyStr.first (Re.sub_go underscore_char "_" f s) = Some d ->
                underscore_char d = false).
Proof.
  revert f. induction s as [|c s IH]; intros f; [done|]. cbn [Re.sub_go].
  destruct (underscore_char c) eqn:Hc.
  - destruct (IH true) as [Hd Hfirst]. destruct f; [done|].
    split; [|done]. rewrite append_cons, append_nil_l. cbn [has_double_underscore].
    rewrite Hd, orb_false_r. specialize (Hfirst eq_refl).
    destruct (Re.sub_go underscore_char "_" true s) as [|d t]; [done|].
    unfold underscore_char in Hfirst. by rewrite (Hfirst d eq_refl), andb_false_r.
  - destruct (IH false) as [Hd _]. split; [|by intros _ d [= <-]].
    cbn [has_double_underscore]. rewrite Hd, orb_false_r.
    unfold underscore_char in Hc. by rewrite Hc.
Qed.

Lemma sanitize_no_double name :
  has_double_underscore (sanitize_filename_component name) = false.
Proof.
  rewrite sanitize_unfold. destruct (PyStr.is_empty name); [done|].
  destruct (_ || _); [done|]. apply collapse_no_double.
Qed.

(** The class of the code is the safe set. *)
Lemma safe_char_set c : safe_char c = PyStr.mem c safe_set.
Proof. by destruct c as [[] [] [] [] [] [] [] []]. Qed.

(** C5: [sanitize_filename_component] replaces every maximal run of
    characters outside [[a-zA-Z0-9._-]] by one underscore, strips ['.'] and
    ['_'] from both ends, collapses runs of underscores, and returns
    ["untitled"] for an empty input or when nothing but ['.'] and ['_'] is
    left; so its result is never empty, holds only characters of the safe
    set, neither starts nor ends with ['.'] or ['_'], and has no two
    underscores in a row.  The safe set and the underscore are written out
    in the statement, character by character. *)
Theorem sanitize_filename_component_spec (name : string) :
  let replace_unsafe := Re.sub_class_plus unsafe_char "_" in
  let collapse := Re.sub_class_plus underscore_char "_" in
  let stripped := PyStr.strip "._" (replace_unsafe name) in
  let safe c := PyStr.mem c safe_set in
  (* the steps, in order *)
  sanitize_filename_component name =
    (if PyStr.is_empty name then "untitled"
     else if PyStr.is_empty (collapse stripped)
             || PyStr.all (fun c => PyStr.mem c "._") (collapse stripped)
          then "untitled"
          else collapse stripped)
  (* every maximal run of characters outside the safe set becomes one
     underscore, and the characters of the safe set stay *)
  /\ (forall c s, safe c = true ->
        replace_unsafe (String c s) = String c (replace_unsafe s))
  /\ (forall u s, u <> "" -> PyStr.all (fun c => negb (safe c)) u = true ->
        (forall c, PyStr.first s = Some c -> safe c = true) ->
        replace_unsafe (u +:+ s) = "_" +:+ replace_unsafe s)
  (* the strip takes a prefix and a suffix of dots and underscores away *)
  /\ (exists l r,
        replace_unsafe name = l +:+ stripped +:+ r
        /\ PyStr.all (fun c => PyStr.mem c "._") l = true
        /\ PyStr.all (fun c => PyStr.mem c "._") r = true
        /\ (forall c, PyStr.first stripped = Some c -> PyStr.mem c "._" = false)
        /\ (forall c, PyStr.last stripped = Some c -> PyStr.mem c "._" = false))
  (* every maximal run of underscores becomes one underscore, and the
     other characters stay *)
  /\ (forall c s, c <> "_"%char -> collapse (String c s) = String c (collapse s))
  /\ (forall u s, u <> "" -> PyStr.all (fun c => Ascii.eqb c "_") u = true ->
        (forall c, PyStr.first s = Some c -> c <> "_"%char) ->
        collapse (u +:+ s) = "_" +:+ collapse s)
  (* the result *)
  /\ PyStr.is_empty (sanitize_filename_component name) = false
  /\ PyStr.all safe (sanitize_filename_component name) = true
  /\ (forall c, PyStr.first (sanitize_filename_component name) = Some c ->
        PyStr.mem c "._" = false)
  /\ (forall c, PyStr.last (sanitize_filename_component name) = Some c ->
        PyStr.mem c "._" = false)
  /\ has_double_underscore (sanitize_filename_component name) = false.
Proof.
  cbv zeta.
  assert (Hunsafe : forall c, PyStr.mem c safe_set = true -> unsafe_char c = false)
    by (intros c Hc; unfold unsafe_char; by rewrite safe_char_set, Hc).
  split_and!.
  - apply sanitize_unfold.
  - intros c s Hc. by apply sub_go_keep, Hunsafe.
  - intros u s Hne Hu Hs. apply sub_class_plus_run; [done | |by intros c ?%Hs%Hunsafe].
    revert Hu. apply all_impl. intros c Hc. unfold unsafe_char. by rewrite safe_char_set.
  - apply strip_spec.
  - intros c s Hc. apply sub_go_keep. by apply Ascii.eqb_neq.
  - intros u s Hne Hu Hs. apply sub_class_plus_run; [done | done |].
    intros c Hc. by apply Ascii.eqb_neq, Hs.
  - apply sanitize_nonempty.
  - generalize (sanitize_safe name). apply all_impl. intros c. by rewrite safe_char_set.
  - apply sanitize_first.
  - apply sanitize_last.
  - apply sanitize_no_double.
Qed.

Lemma sanitize_filename_component_spec_witness :
  Re.sub_class_plus unsafe_char "_" (" /" +:+ "v2")
  = "_" +:+ Re.sub_class_plus unsafe_char "_" "v2"
  /\ Re.sub_class_plus underscore_char "_" ("__" +:+ "b")
     = "_" +:+ Re.sub_class_plus underscore_char "_" "b"
  /\ sanitize_filename_component "..Roo Code//(v2)__.txt_" = "Roo_Code_v2_.txt"
  /\ PyStr.is_empty (sanitize_filename_component "..Roo Code//(v2)__.txt_") = false
  /\ PyStr.all (fun c => PyStr.mem c safe_set)
       (sanitize_filename_component "..Roo Code//(v2)__.txt_") = true
  /\ has_double_underscore (sanitize_filename_component "..Roo Code//(v2)__.txt_") = false.
Proof.
  destruct (sanitize_filename_component_spec "..Roo Code//(v2)__.txt_")
    as (Hsteps & _ & Hrun & _ & _ & Hcollapse & Hne & Hsafe & _ & _ & Hdouble).
  split_and!; [| |exact Hsteps|done..].
  - apply Hrun; [done | reflexivity |]. by intros c [= <-].
  - apply Hcollapse; [done | reflexivity |]. by intros c [= <-].
Defined.

(** * URLs that [urlparse] accepts *)



Lemma all_not_mem p c s : PyStr.all p s = true -> p c = false -> PyStr.mem c s = false.
Proof.
  intros Hs Hc. induction s as [|d s IH]; simpl in *; [done|].
  apply andb_prop in Hs as [Hd Hs]. rewrite (IH Hs), orb_false_r.
  destruct (Ascii.eqb_spec c d) as [->|]; [congruence | done].
Qed.




(** * [derive_filename_from_url] *)

Lemma derive_unfold lib url ext :
  derive_filename_from_url lib url ext =
    match UrlParse.urlparse lib url with
    | Returns parsed =>
        Returns (PyStr.take max_len_base (sanitize_filename_component (name_base_of parsed))
                 +:+ ext)
    | Raises e => Raises e
    end.
Proof. unfold derive_filename_from_url, result_bind. by destruct (UrlParse.urlparse lib url). Qed.

(** The truncated stem: between 1 and 50 characters, all of the safe set,
    and not starting with a dot or an underscore. *)
Lemma truncated_stem name :
  let stem := PyStr.take max_len_base (sanitize_filename_component name) in
  PyStr.is_empty stem = false
  /\ String.length stem <= 50
  /\ PyStr.all safe_char stem = true
  /\ (forall c, PyStr.first stem = Some c -> PyStr.mem c "._" = false).
Proof.
  cbv zeta. split_and!.
  - apply take_is_empty; [apply sanitize_nonempty | unfold max_len_base; lia].
  - apply length_take_le.
  - apply all_take, sanitize_safe.
  - intros c. rewrite first_take by (unfold max_len_base; lia). apply sanitize_first.
Qed.

(** C3, as the code has it: the dot of the stem ["archive.tar"] is in the
    safe set and stays, so the name derived from
    ["https://deepwiki.com/a/b/archive.tar.gz"] with [".md"] is
    ["archive.tar.md"]. *)
Theorem derive_archive_tar_gz (lib : UrlParse.Checks) :
  derive_filename_from_url lib "https://deepwiki.com/a/b/archive.tar.gz" ".md"
  = Returns "archive.tar.md".
Proof. reflexivity. Qed.

(** C3 as stated fails: no choice of the library checks makes the result
    ["archive_tar.md"]. *)
Lemma derive_archive_tar_gz_not_underscored :
  ~ exists lib,
      derive_filename_from_url lib "https://deepwiki.com/a/b/archive.tar.gz" ".md"
      = Returns "archive_tar.md".
Proof. intros [lib H]. rewrite derive_archive_tar_gz in H. discriminate H. Qed.

(** C4, as the code has it: the extension is appended as it is given.
    Whenever a name is derived, it is the truncated sanitized stem followed
    by exactly the extension string, with nothing put between them. *)
Theorem derive_appends_extension_verbatim
    (lib : UrlParse.Checks) (url ext out : string) :
  derive_filename_from_url lib url ext = Returns out ->
  exists parsed stem,
    UrlParse.urlparse lib url = Returns parsed
    /\ stem = PyStr.take max_len_base (sanitize_filename_component (name_base_of parsed))
    /\ out = stem +:+ ext
    /\ String.length out = String.length stem + String.length ext
    /\ PyStr.all safe_char stem = true.
Proof.
  rewrite derive_unfold. destruct (UrlParse.urlparse lib url) as [parsed|e]; [|done].
  intros [= <-]. eexists parsed, _. split_and!; try done.
  - apply length_append.
  - apply truncated_stem.
Qed.

Lemma derive_appends_extension_verbatim_witness :
  exists parsed stem,
    UrlParse.urlparse lenient_checks "https://deepwiki.com/a" = Returns parsed
    /\ stem = PyStr.take max_len_base (sanitize_filename_component (name_base_of parsed))
    /\ "amd" = stem +:+ "md"
    /\ String.length "amd" = String.length stem + String.length "md"
    /\ PyStr.all safe_char stem = true.
Proof.
  apply (derive_appends_extension_verbatim lenient_checks "https://deepwiki.com/a" "md" "amd").
  reflexivity.
Defined.

(** C4 as stated fails: with the extension ["md"], which does not begin
    with a dot, the name derived from ["https://deepwiki.com/a"] is ["amd"],
    which does not end with [".md"]. *)
Lemma derive_extension_not_normalized :
  ~ exists lib out,
      derive_filename_from_url lib "https://deepwiki.com/a" "md" = Returns out
      /\ PyStr.endswith out ("." +:+ "md").
Proof.
  intros (lib & out & Hout & front & Hfront).
  assert (derive_filename_from_url lib "https://deepwiki.com/a" "md" = Returns "amd")
    as Heq by reflexivity.
  rewrite Heq in Hout. injection Hout as <-.
  assert (Hlen := f_equal String.length Hfront). rewrite length_append in Hlen.
  destruct front as [|c front]; [discriminate Hfront | simpl in Hlen; lia].
Qed.




(** * [save_markdown_from_url] *)

Lemma github_prefix_not_deepwiki s :
  PyStr.startswith s SaveMarkdown.GITHUB_BASE_URL = true ->
  PyStr.startswith s SaveMarkdown.DEEPWIKI_BASE_URL = false.
Proof. intros H. rewrite (startswith_drop _ _ H). reflexivity. Qed.

Lemma prefix_check_startswith target p :
  PyStr.startswith (SaveMarkdown.url_for_prefix_check target) p = true ->
  PyStr.startswith target p = true.
Proof. intros H. by eapply split1_fst_startswith, split1_fst_startswith. Qed.

Section SaveMarkdownFromUrl.

Context {Regex : Type} (extract_chunks_from_html : string -> list string).
Context (markdown_output_path : string) (keep_original_html : bool)
  (original_html_save_path : option string) (sep html_content_encoding : string)
  (markdown_file_encoding : option string)
  (request_headers : option (gmap string string)) (request_timeout : Z).

(** C1: when the URL, cut before its query string and fragment, starts with
    ["https://github.com/"], the input is that prefix followed by some
    [rest], the download URL is ["https://deepwiki.com/"] followed by the
    same [rest] (path, query string and fragment as they were), and the
    request goes to it; ["https://github.com/Org/Repo"] gives
    ["https://deepwiki.com/Org/Repo"]. *)
Theorem github_url_is_rewritten (pattern : Regex) :
  (forall target_url,
     PyStr.startswith (SaveMarkdown.url_for_prefix_check target_url)
       SaveMarkdown.GITHUB_BASE_URL = true ->
     exists rest,
       target_url = SaveMarkdown.GITHUB_BASE_URL +:+ rest
       /\ SaveMarkdown.save_markdown_from_url (Some pattern) extract_chunks_from_html
            target_url markdown_output_path keep_original_html original_html_save_path
            sep html_content_encoding markdown_file_encoding request_headers request_timeout
          = (trigger (SaveMarkdown.Log DEBUG
                        (SaveMarkdown.MsgTransformed target_url
                           (SaveMarkdown.DEEPWIKI_BASE_URL +:+ rest)));;
             SaveMarkdown.download_and_save extract_chunks_from_html
               (SaveMarkdown.DEEPWIKI_BASE_URL +:+ rest)
               markdown_output_path keep_original_html original_html_save_path
               sep html_content_encoding markdown_file_encoding request_headers
               request_timeout)
       /\ SaveMarkdown.first_request
            (SaveMarkdown.save_markdown_from_url (Some pattern) extract_chunks_from_html
               target_url markdown_output_path keep_original_html original_html_save_path
               sep html_content_encoding markdown_file_encoding request_headers
               request_timeout)
          = Some (SaveMarkdown.DEEPWIKI_BASE_URL +:+ rest))
  /\ SaveMarkdown.first_request
       (SaveMarkdown.save_markdown_from_url (Some pattern) extract_chunks_from_html
          "https://github.com/Org/Repo" markdown_output_path keep_original_html
          original_html_save_path sep html_content_encoding markdown_file_encoding
          request_headers request_timeout)
     = Some "https://deepwiki.com/Org/Repo".
Proof.
  split; [|reflexivity].
  intros target_url H.
  exists (PyStr.drop (String.length SaveMarkdown.GITHUB_BASE_URL) target_url).
  split; [by apply startswith_drop, prefix_check_startswith|].
  unfold SaveMarkdown.save_markdown_from_url.
  rewrite (github_prefix_not_deepwiki _ H), H. split; reflexivity.
Qed.

(** C2: when the URL, cut before its query string and fragment, starts with
    neither base, every run returns [False] and no request is made, whether
    the pattern compiled or not. *)
Theorem other_url_is_rejected (MARKDOWN_CHUNK_REGEX : option Regex) (target_url : string) :
  PyStr.startswith (SaveMarkdown.url_for_prefix_check target_url)
    SaveMarkdown.DEEPWIKI_BASE_URL = false ->
  PyStr.startswith (SaveMarkdown.url_for_prefix_check target_url)
    SaveMarkdown.GITHUB_BASE_URL = false ->
  always_returns false
    (SaveMarkdown.save_markdown_from_url MARKDOWN_CHUNK_REGEX extract_chunks_from_html
       target_url markdown_output_path keep_original_html original_html_save_path
       sep html_content_encoding markdown_file_encoding request_headers request_timeout)
  /\ SaveMarkdown.never_requests
       (SaveMarkdown.save_markdown_from_url MARKDOWN_CHUNK_REGEX extract_chunks_from_html
          target_url markdown_output_path keep_original_html original_html_save_path
          sep html_content_encoding markdown_file_encoding request_headers request_timeout)
  /\ (forall pattern,
        MARKDOWN_CHUNK_REGEX = Some pattern ->
        SaveMarkdown.save_markdown_from_url MARKDOWN_CHUNK_REGEX extract_chunks_from_html
          target_url markdown_output_path keep_original_html original_html_save_path
          sep html_content_encoding markdown_file_encoding request_headers request_timeout
        = (trigger (SaveMarkdown.Log ERROR SaveMarkdown.MsgInvalidUrl);;
           trigger (SaveMarkdown.Log ERROR (SaveMarkdown.MsgReceivedUrl target_url));;
           mret false)).
Proof.
  intros Hd Hg. unfold SaveMarkdown.save_markdown_from_url.
  destruct MARKDOWN_CHUNK_REGEX as [pattern|]; rewrite ?Hd, ?Hg.
  - split_and!; [by intros [] [] | by repeat split | by intros ? _].
  - split_and!; [by intros [] | by repeat split | by intros ? [=]].
Qed.

(** C8: when the pattern did not compile, the function logs the critical
    error and returns [False], for every input: it does nothing else, so
    the URL is not looked at and no request is made. *)
Theorem uncompiled_pattern_aborts (target_url : string) :
  SaveMarkdown.save_markdown_from_url (@None Regex) extract_chunks_from_html
    target_url markdown_output_path keep_original_html original_html_save_path
    sep html_content_encoding markdown_file_encoding request_headers request_timeout
  = (trigger (SaveMarkdown.Log CRITICAL SaveMarkdown.MsgRegexNotCompiled);; mret false)
  /\ always_returns false
       (SaveMarkdown.save_markdown_from_url (@None Regex) extract_chunks_from_html
          target_url markdown_output_path keep_original_html original_html_save_path
          sep html_content_encoding markdown_file_encoding request_headers request_timeout)
  /\ SaveMarkdown.never_requests
       (SaveMarkdown.save_markdown_from_url (@None Regex) extract_chunks_from_html
          target_url markdown_output_path keep_original_html original_html_save_path
          sep html_content_encoding markdown_file_encoding request_headers request_timeout).
Proof. split_and!; [reflexivity | by intros [] | by repeat split]. Qed.

End SaveMarkdownFromUrl.

Lemma github_url_is_rewritten_witness :
  exists rest,
    "https://github.com/Org/Repo?tab=readme#top" = SaveMarkdown.GITHUB_BASE_URL +:+ rest
    /\ SaveMarkdown.first_request
         (SaveMarkdown.save_markdown_from_url (Some tt) (fun _ => [])
            "https://github.com/Org/Repo?tab=readme#top" "out.md" false None "---" "utf-8"
            None None 30)
       = Some (SaveMarkdown.DEEPWIKI_BASE_URL +:+ rest).
Proof.
  destruct (proj1 (github_url_is_rewritten (fun _ => []) "out.md" false None "---" "utf-8"
                     None None 30 tt)
              "https://github.com/Org/Repo?tab=readme#top" eq_refl)
    as (rest & Hrest & _ & Hreq).
  by exists rest.
Defined.

Lemma other_url_is_rejected_witness :
  always_returns false
    (SaveMarkdown.save_markdown_from_url (Some tt) (fun _ => [])
       "http://example.com/?u=https://github.com/" "out.md" false None "---" "utf-8"
       None None 30)
  /\ SaveMarkdown.never_requests
       (SaveMarkdown.save_markdown_from_url (Some tt) (fun _ => [])
          "http://example.com/?u=https://github.com/" "out.md" false None "---" "utf-8"
          None None 30).
Proof.
  destruct (other_url_is_rejected (fun _ => []) "out.md" false None "---" "utf-8" None None 30
              (Some tt) "http://example.com/?u=https://github.com/" eq_refl eq_refl)
    as (Hret & Hreq & _).
  by split.
Defined.

(** * [save_chunks_to_dir] *)


Import ChunkProcessor Chunks.

Lemma run_bind env {A B : Type} (p : Prog Op A) (k : A -> Prog Op B) w :
  run env (p ≫= k) w = let '(a, w') := run env p w in run env (k a) w'.
Proof.
  revert w. induction p as [a|X e h IH]; intros w; [done|].
  cbn. destruct (handle env e w) as [x w']. apply IH.
Qed.

(** One turn of the loop, in full. *)
Lemma run_save_chunk env dir der ext enc i c w :
  run env (save_chunk dir der ext enc i c) w =
    match der c i with
    | Raises e => (false, add_log w (ERROR, MsgFailed i (unnamed i) dir e))
    | Returns n =>
        let w1 := before_write dir ext i n w in
        let path := path_of dir ext i n in
        match write_answer env w1 (Pathlib.to_str path) enc c with
        | Written =>
            (true, add_log (store w1 (file_at env path) (stored env enc c))
                     (INFO, MsgSaved i (Pathlib.name path) dir))
        | NotOpened e => (false, add_log w1 (ERROR, MsgFailed i (base_of i n) dir e))
        | Interrupted e remains =>
            (false, add_log (store w1 (file_at env path) remains)
                      (ERROR, MsgFailed i (base_of i n) dir e))
        end
    end.
Proof.
  unfold save_chunk. destruct (der c i) as [n|e]; [|done].
  unfold before_write, path_of, base_of, add_log, store, file_at.
  destruct (PyStr.is_empty n); cbn;
    match goal with
    | |- context [write_answer env ?w ?p ?e ?c] => destruct (write_answer env w p e c)
    end; done.
Qed.

Lemma run_save_loop_cons env dir der ext enc i c cs acc w :
  run env (save_loop dir der ext enc i (c :: cs) acc) w =
    let '(ok, w1) := run env (save_chunk dir der ext enc i c) w in
    run env (save_loop dir der ext enc (S i) cs (if ok then acc else false)) w1.
Proof. cbn [save_loop]. by rewrite run_bind. Qed.

(** Membership in a log that is written out: refute it, or find it. *)
Ltac log_absent :=
  repeat match goal with
    | H : ex _ |- _ => destruct H
    | H : _ ∈ [] |- _ => by apply elem_of_nil in H
    | H : _ ∈ _ :: _ |- _ => apply elem_of_cons in H as [H|H]
    | H : list_elem_of _ [] |- _ => by apply elem_of_nil in H
    | H : list_elem_of _ (_ :: _) |- _ => apply elem_of_cons in H as [H|H]
    end;
  simplify_eq.

Ltac log_present :=
  repeat eexists; repeat first [apply list_elem_of_here | apply list_elem_of_further].

(** What one turn of the loop leaves behind. *)
Lemma save_chunk_post env dir der ext enc i c w :
  exists new,
    logged (run env (save_chunk dir der ext enc i c) w).2 = logged w ++ new
    /\ indices_within i (S i) new
    /\ ((run env (save_chunk dir der ext enc i c) w).1 = true ->
        saved dir i new /\ ~ failed dir i new
        /\ exists n, der c i = Returns n
             /\ attempted i (path_of dir ext i n) new
             /\ files (run env (save_chunk dir der ext enc i c) w).2
                = <[file_at env (path_of dir ext i n) := stored env enc c]> (files w))
    /\ ((run env (save_chunk dir der ext enc i c) w).1 = false ->
        failed dir i new /\ ~ saved dir i new
        /\ (files (run env (save_chunk dir der ext enc i c) w).2 = files w
            \/ exists n remains,
                 der c i = Returns n
                 /\ files (run env (save_chunk dir der ext enc i c) w).2
                    = <[file_at env (path_of dir ext i n) := remains]> (files w)))
    /\ (forall e, der c i = Raises e ->
          (ERROR, MsgFailed i (unnamed i) dir e) ∈ new /\ forall path, ~ attempted i path new)
    /\ (forall n, der c i = Returns n ->
          forall path, attempted i path new <-> path = path_of dir ext i n).
Proof.
  rewrite run_save_chunk. unfold saved, failed, attempted, indices_within.
  destruct (der c i) as [n|e].
  - cbv zeta. unfold before_write.
    destruct (write_answer env _ _ _ _) as [|e|e remains];
      destruct (PyStr.is_empty n) eqn:Hn; cbn;
      rewrite <- ?app_assoc; eexists; (split; [reflexivity|]); cbn.
    all: split_and!; try done.
    all: try (intros lm Hlm; log_absent; eexists; (split; [reflexivity | lia])).
    all: try (intros _; split_and!; [log_present | intros Hs; log_absent | by left]).
    all: try (intros _; split_and!;
              [log_present | intros Hs; log_absent | right; by eexists _, _]).
    all: try (intros _; split_and!;
              [ log_present | intros Hs; log_absent
              | eexists; split_and!; [done | log_present | done] ]).
    all: try (intros ? [= <-] path; split; [intros Hs; by log_absent | intros ->; log_present]).
  - cbn. eexists. split; [reflexivity|]. split_and!; try done.
    + intros lm Hlm. log_absent. eexists. split; [reflexivity | lia].
    + intros _. split_and!; [log_present | intros Hs; log_absent | by left].
    + intros ? [= <-]. split; [log_present | intros path Hs; log_absent].
Qed.

Lemma saved_app dir k l1 l2 : saved dir k (l1 ++ l2) <-> saved dir k l1 \/ saved dir k l2.
Proof.
  unfold saved. split.
  - intros [name [H|H]%elem_of_app]; [left | right]; by exists name.
  - intros [[name H]|[name H]]; exists name; apply elem_of_app; auto.
Qed.

Lemma failed_app dir k l1 l2 : failed dir k (l1 ++ l2) <-> failed dir k l1 \/ failed dir k l2.
Proof.
  unfold failed. split.
  - intros (base & e & [H|H]%elem_of_app); [left | right]; by exists base, e.
  - intros [(base & e & H)|(base & e & H)]; exists base, e; apply elem_of_app; auto.
Qed.

Lemma attempted_app k path l1 l2 :
  attempted k path (l1 ++ l2) <-> attempted k path l1 \/ attempted k path l2.
Proof. unfold attempted. by rewrite elem_of_app. Qed.

Lemma record_within lo hi l lvl m k :
  indices_within lo hi l -> (lvl, m) ∈ l -> msg_index m = Some k -> lo <= k < hi.
Proof. intros Hl Hin Hk. destruct (Hl _ Hin) as (k' & Hk' & ?). simpl in Hk'. by simplify_eq. Qed.

Lemma saved_within dir k lo hi l : indices_within lo hi l -> saved dir k l -> lo <= k < hi.
Proof. intros Hl [name Hin]. by eapply record_within. Qed.

Lemma failed_within dir k lo hi l : indices_within lo hi l -> failed dir k l -> lo <= k < hi.
Proof. intros Hl (base & e & Hin). by eapply record_within. Qed.

Lemma attempted_within k path lo hi l :
  indices_within lo hi l -> attempted k path l -> lo <= k < hi.
Proof. intros Hl Hin. by eapply record_within. Qed.

Lemma indices_within_app lo mid hi l1 l2 :
  lo <= mid <= hi -> indices_within lo mid l1 -> indices_within mid hi l2 ->
  indices_within lo hi (l1 ++ l2).
Proof.
  intros Hm H1 H2 lm [Hin|Hin]%elem_of_app.
  - destruct (H1 _ Hin) as (k & ? & ?). exists k. split; [done | lia].
  - destruct (H2 _ Hin) as (k & ? & ?). exists k. split; [done | lia].
Qed.

Lemma lookup_cons_later {A : Type} (x : A) (l : list A) i k :
  i < k -> (x :: l) !! (k - i) = l !! (k - S i).
Proof. intros H. by replace (k - i) with (S (k - S i)) by lia. Qed.

Lemma lookup_cons_here {A : Type} (x : A) (l : list A) i : (x :: l) !! (i - i) = Some x.
Proof. by rewrite Nat.sub_diag. Qed.

Lemma save_loop_post env dir der ext enc cs :
  forall i acc w,
  exists new,
    loop_post env dir der ext enc i cs acc w
      (run env (save_loop dir der ext enc i cs acc) w).1
      (run env (save_loop dir der ext enc i cs acc) w).2 new.
Proof.
  induction cs as [|c cs IH]; intros i acc w.
  { exists []. unfold loop_post. cbn. rewrite app_nil_r.
    split_and!; try done.
    - by intros lm ?%elem_of_nil.
    - intros k ?. lia.
    - split; [|by intros [? _]]. intros ->. split; [done|]. intros k ?. lia.
    - by left.
    - by left. }
  rewrite run_save_loop_cons.
  destruct (save_chunk_post env dir der ext enc i c w)
    as (new1 & Hlog1 & Hin1 & Hok1 & Hko1 & Hraise1 & Hret1).
  destruct (run env (save_chunk dir der ext enc i c) w) as [ok w1] eqn:Hstep.
  cbn [fst snd] in *.
  destruct (IH (S i) (if ok then acc else false) w1)
    as (new2 & Hlog2 & Hin2 & Hex2 & Hacc2 & Hrej2 & Hfiles2 & Hraise2 & Hret2 & Hlast2).
  destruct (run env (save_loop dir der ext enc (S i) cs (if ok then acc else false)) w1)
    as [ok' w'] eqn:Hrest.
  cbn [fst snd] in *.
  (* records of the head are about [i], those of the tail about later indices *)
  assert (Hs1 : forall k, saved dir k new1 -> k = i)
    by (intros k Hk; apply (saved_within _ _ _ _ _ Hin1) in Hk; lia).
  assert (Hf1 : forall k, failed dir k new1 -> k = i)
    by (intros k Hk; apply (failed_within _ _ _ _ _ Hin1) in Hk; lia).
  assert (Ha1 : forall k path, attempted k path new1 -> k = i)
    by (intros k path Hk; apply (attempted_within _ _ _ _ _ Hin1) in Hk; lia).
  assert (Hs2 : forall k, saved dir k new2 -> i < k)
    by (intros k Hk; apply (saved_within _ _ _ _ _ Hin2) in Hk; lia).
  assert (Hf2 : forall k, failed dir k new2 -> i < k)
    by (intros k Hk; apply (failed_within _ _ _ _ _ Hin2) in Hk; lia).
  assert (Ha2 : forall k path, attempted k path new2 -> i < k)
    by (intros k path Hk; apply (attempted_within _ _ _ _ _ Hin2) in Hk; lia).
  assert (Hm2 : forall k b e, (ERROR, MsgFailed k b dir e) ∈ new2 -> i < k)
    by (intros k b e Hk; eapply record_within in Hk; [|done..]; lia).
  (* the head chunk: saved, or failed *)
  assert (Hhead : (ok = true /\ saved dir i new1 /\ ~ failed dir i new1)
                  \/ (ok = false /\ failed dir i new1 /\ ~ saved dir i new1)).
  { destruct ok; [left | right]; split; try done.
    - by destruct (Hok1 eq_refl) as (? & ? & _).
    - by destruct (Hko1 eq_refl) as (? & ? & _). }
  exists (new1 ++ new2). unfold loop_post. cbn [length]. split_and!.
  - by rewrite Hlog2, Hlog1, app_assoc.
  - eapply (indices_within_app i (S i)); [lia | done |].
    by replace (i + S (length cs)) with (S i + length cs) by lia.
  - intros k Hk. rewrite !saved_app, !failed_app.
    destruct (decide (k = i)) as [->|Hne].
    + destruct Hhead as [(_ & Hs & Hf)|(_ & Hf & Hs)]; [left | right]; split; auto.
      * intros [?|?%Hf2]; [done | lia].
      * intros [?|?%Hs2]; [done | lia].
    + destruct (Hex2 k) as [(Hs & Hf)|(Hf & Hs)]; [lia | left | right]; split; auto.
      * intros [?%Hf1|?]; [lia | done].
      * intros [?%Hs1|?]; [lia | done].
  - rewrite Hacc2. split.
    + intros [Hacc Hall]. destruct ok; [|done].
      split; [done|]. intros k Hk. rewrite saved_app.
      destruct (decide (k = i)) as [->|Hne].
      * left. by destruct (Hok1 eq_refl) as (? & _).
      * right. apply Hall. lia.
    + intros [-> Hall].
      assert (ok = true) as ->.
      { destruct Hhead as [(-> & _)|(_ & _ & Hns)]; [done|].
        destruct (Hall i) as [name Hname]; [lia|].
        apply elem_of_app in Hname as [Hname|Hname].
        - destruct Hns. by exists name.
        - assert (i < i) by (apply Hs2; by exists name). lia. }
      split; [done|]. intros k Hk.
      destruct (proj1 (saved_app _ _ _ _) (Hall k ltac:(lia))) as [?%Hs1|?]; [lia | done].
  - intros Hfalse. destruct (Hrej2 Hfalse) as [Hacc|(k & Hk & Hf)].
    + destruct Hhead as [(-> & _)|(_ & Hf & _)]; [by left|].
      right. exists i. split; [lia|]. apply failed_app. by left.
    + right. exists k. split; [lia|]. apply failed_app. by right.
  - intros f. destruct (Hfiles2 f) as [Hsame|(k & c' & n & Hk & Hc' & Hn & -> & Hf)].
    + assert (Hturn : files w1 = files w
                      \/ exists n content,
                           der c i = Returns n
                           /\ files w1 = <[file_at env (path_of dir ext i n) := content]> (files w)).
      { destruct ok.
        - destruct (Hok1 eq_refl) as (_ & _ & n & Hn & _ & Hfs). right.
          by exists n, (stored env enc c).
        - by destruct (Hko1 eq_refl) as (_ & _ & Hfs). }
      destruct Hturn as [Hfs|(n & content & Hn & Hfs)]; [left; by rewrite Hsame, Hfs|].
      destruct (decide (file_at env (path_of dir ext i n) = f)) as [<-|Hne].
      * right. exists i, c, n. rewrite lookup_cons_here, Hsame, Hfs, lookup_insert_eq.
        split_and!; auto.
      * left. by rewrite Hsame, Hfs, lookup_insert_ne.
    + right. exists k, c', n. rewrite lookup_cons_later by lia. split_and!; auto with lia.
  - intros k c' e Hk Hc' He. rewrite elem_of_app.
    destruct (decide (k = i)) as [->|Hne].
    + rewrite lookup_cons_here in Hc'. injection Hc' as <-.
      destruct (Hraise1 e He) as [Hin Hno]. split; [by left|].
      intros path [?%Hno|?%Ha2]%attempted_app; [done | lia].
    + rewrite lookup_cons_later in Hc' by lia.
      destruct (Hraise2 k c' e ltac:(lia) Hc' He) as [Hin Hno]. split; [by right|].
      intros path [?%Ha1|?%Hno]%attempted_app; [lia | done].
  - intros k c' n Hk Hc' Hn path. rewrite attempted_app.
    destruct (decide (k = i)) as [->|Hne].
    + rewrite lookup_cons_here in Hc'. injection Hc' as <-.
      rewrite <- (Hret1 n Hn path). split; [|by left].
      intros [?|?%Ha2]; [done | lia].
    + rewrite lookup_cons_later in Hc' by lia.
      rewrite <- (Hret2 k c' n ltac:(lia) Hc' Hn path). split; [|by right].
      intros [?%Ha1|?]; [lia | done].
  - intros k c' n Hk Hc' Hn Hsv Hlater.
    destruct (decide (k = i)) as [->|Hne].
    + rewrite lookup_cons_here in Hc'. injection Hc' as <-.
      assert (ok = true) as ->.
      { destruct Hhead as [(-> & _)|(_ & _ & Hns)]; [done|].
        apply saved_app in Hsv as [?|?%Hs2]; [done | lia]. }
      destruct (Hok1 eq_refl) as (_ & _ & n' & Hn' & _ & Hfs).
      rewrite Hn in Hn'. injection Hn' as <-.
      destruct (Hfiles2 (file_at env (path_of dir ext i n)))
        as [Hsame|(k' & c' & n' & Hk' & Hc' & Hn' & Hp & _)].
      * by rewrite Hsame, Hfs, lookup_insert_eq.
      * exfalso. apply (Hlater k' c' n');
          [lia | by rewrite lookup_cons_later by lia | done | done].
    + rewrite lookup_cons_later in Hc' by lia.
      apply (Hlast2 k c' n); [lia | done | done | |].
      * apply saved_app in Hsv as [?%Hs1|?]; [lia | done].
      * intros k' c'' n' Hk' Hc'' Hn'.
        apply (Hlater k' c'' n'); [done | by rewrite lookup_cons_later by lia | done].
Qed.

(** The whole function: the loop, and one more record that is about no
    chunk in particular. *)
Lemma run_save_chunks_to_dir env chunks dir der ext enc w :
  exists summary,
    msg_index summary.2 = None
    /\ run env (save_chunks_to_dir chunks dir der ext enc) w
       = ((run env (save_loop dir der ext enc 0 chunks true) w).1,
          add_log (run env (save_loop dir der ext enc 0 chunks true) w).2 summary).
Proof.
  destruct chunks as [|c cs]; [by exists (INFO, MsgNoChunks dir)|].
  unfold save_chunks_to_dir. rewrite run_bind.
  destruct (run env (save_loop dir der ext enc 0 (c :: cs) true) w) as [[] w'].
  - by exists (INFO, MsgAllSaved (length (c :: cs)) dir).
  - by exists (ERROR, MsgSomeFailed dir).
Qed.

Lemma saved_summary dir k l s :
  msg_index s.2 = None -> saved dir k (l ++ [s]) <-> saved dir k l.
Proof.
  intros Hs. rewrite saved_app. split; [|by left].
  intros [?|[name Hin]]; [done|]. apply list_elem_of_singleton in Hin. by subst.
Qed.

Lemma failed_summary dir k l s :
  msg_index s.2 = None -> failed dir k (l ++ [s]) <-> failed dir k l.
Proof.
  intros Hs. rewrite failed_app. split; [|by left].
  intros [?|(base & e & Hin)]; [done|]. apply list_elem_of_singleton in Hin. by subst.
Qed.

Lemma attempted_summary k path l s :
  msg_index s.2 = None -> attempted k path (l ++ [s]) <-> attempted k path l.
Proof.
  intros Hs. rewrite attempted_app. split; [|by left].
  intros [?|Hin]; [done|]. apply list_elem_of_singleton in Hin. by subst.
Qed.

(** What a call of [save_chunks_to_dir] on the files [fs] leaves behind. *)
Lemma save_chunks_to_dir_post env chunks dir der ext enc fs :
  let r := run env (save_chunks_to_dir chunks dir der ext enc) (start fs) in
  (forall k, k < length chunks ->
     (saved dir k (logged r.2) /\ ~ failed dir k (logged r.2))
     \/ (failed dir k (logged r.2) /\ ~ saved dir k (logged r.2)))
  /\ (r.1 = true <-> forall k, k < length chunks -> saved dir k (logged r.2))
  /\ (r.1 = false -> exists k, k < length chunks /\ failed dir k (logged r.2))
  /\ (forall f,
        files r.2 !! f = fs !! f
        \/ exists k c n,
             chunks !! k = Some c /\ der c k = Returns n
             /\ f = file_at env (path_of dir ext k n) /\ is_Some (files r.2 !! f))
  /\ (forall k c e,
        chunks !! k = Some c -> der c k = Raises e ->
        (ERROR, MsgFailed k (unnamed k) dir e) ∈ logged r.2
        /\ forall path, ~ attempted k path (logged r.2))
  /\ (forall k c n,
        chunks !! k = Some c -> der c k = Returns n ->
        forall path, attempted k path (logged r.2) <-> path = path_of dir ext k n)
  /\ (forall k c n,
        chunks !! k = Some c -> der c k = Returns n -> saved dir k (logged r.2) ->
        (forall k' c' n',
           k < k' -> chunks !! k' = Some c' -> der c' k' = Returns n' ->
           file_at env (path_of dir ext k' n') <> file_at env (path_of dir ext k n)) ->
        files r.2 !! file_at env (path_of dir ext k n) = Some (stored env enc c)).
Proof.
  cbv zeta.
  destruct (run_save_chunks_to_dir env chunks dir der ext enc (start fs))
    as (summary & Hsum & ->).
  destruct (save_loop_post env dir der ext enc chunks 0 true (start fs))
    as (new & Hlog & _ & Hex & Hacc & Hrej & Hfiles & Hraise & Hret & Hlast).
  destruct (run env (save_loop dir der ext enc 0 chunks true) (start fs)) as [ok w'].
  cbn [fst snd add_log files logged start] in *. rewrite app_nil_l in Hlog. rewrite Hlog.
  setoid_rewrite saved_summary; [|done..].
  setoid_rewrite failed_summary; [|done..].
  setoid_rewrite attempted_summary; [|done..].
  split_and!.
  - intros k Hk. apply Hex. lia.
  - rewrite Hacc. split.
    + intros [_ H] k Hk. apply H. lia.
    + intros H. split; [done|]. intros k Hk. apply H. lia.
  - intros Hfalse. destruct (Hrej Hfalse) as [|(k & Hk & Hf)]; [done|].
    exists k. split; [lia | done].
  - intros f. destruct (Hfiles f) as [|(k & c & n & _ & Hc & H)]; [by left|].
    right. exists k, c, n. by rewrite Nat.sub_0_r in Hc.
  - intros k c e Hc He. destruct (Hraise k c e) as [Hin Hno]; [lia | by rewrite Nat.sub_0_r | done |].
    split; [|done]. apply elem_of_app. by left.
  - intros k c n Hc Hn. apply (Hret k c n); [lia | by rewrite Nat.sub_0_r | done].
  - intros k c n Hc Hn Hsv Hlater.
    apply (Hlast k c n); [lia | by rewrite Nat.sub_0_r | done | done |].
    intros k' c' n' Hk' Hc'. rewrite Nat.sub_0_r in Hc'. by apply Hlater.
Qed.

(** A chunk that the log reports as saved had a name returned for it. *)
Lemma saved_returns env chunks dir der ext enc fs k c :
  let r := run env (save_chunks_to_dir chunks dir der ext enc) (start fs) in
  chunks !! k = Some c -> saved dir k (logged r.2) -> exists n, der c k = Returns n.
Proof.
  cbv zeta. intros Hc Hsv.
  destruct (save_chunks_to_dir_post env chunks dir der ext enc fs)
    as (Hex & _ & _ & _ & Hraise & _).
  destruct (der c k) as [n|e] eqn:Hder; [by exists n|].
  destruct (Hraise k c e Hc Hder) as [Hin _].
  destruct (Hex k) as [[_ Hnf]|[_ Hns]]; [by eapply lookup_lt_Some | | done].
  destruct Hnf. by exists (unnamed k), e.
Qed.



(** C9: when the deriver returns the empty string for the chunk at index
    [i], the turn of the loop for that chunk writes to the path made of the
    directory and ["chapter_"], the decimal [i + 1] and the extension; the
    log of the whole call shows the attempt on that path and on no other;
    and if the chunk was saved, the file that the path names holds the
    chunk, as the encoding stores it, unless the path of a later chunk names
    the same file. *)
Theorem empty_name_falls_back_to_chapter
    (env : Env) (chunks : list string) (output_dir : Pathlib.PurePath)
    (filename_deriver : Deriver) (file_extension encoding : string)
    (fs : gmap string string) (i : nat) (chunk_content : string) :
  chunks !! i = Some chunk_content ->
  filename_deriver chunk_content i = Returns "" ->
  let r := run env (save_chunks_to_dir chunks output_dir filename_deriver
                      file_extension encoding) (start fs) in
  let base_filename := "chapter_" +:+ PyStr.of_nat (i + 1) in
  let path :=
    Pathlib.truediv output_dir (base_filename +:+ actual_extension file_extension) in
  save_chunk output_dir filename_deriver file_extension encoding i chunk_content
  = (trigger (Log WARNING (MsgEmptyName i base_filename));;
     trigger (Log DEBUG (MsgAttempt i path));;
     written ← trigger (WriteText (Pathlib.to_str path) encoding chunk_content);
     match written with
     | Returns _ =>
         trigger (Log INFO (MsgSaved i (Pathlib.name path) output_dir));; mret true
     | Raises e =>
         trigger (Log ERROR (MsgFailed i base_filename output_dir e));; mret false
     end)
  /\ attempted i path (logged r.2)
  /\ (forall path', attempted i path' (logged r.2) -> path' = path)
  /\ (saved output_dir i (logged r.2) ->
      (forall k' path',
         i < k' -> attempted k' path' (logged r.2) -> file_at env path' <> file_at env path) ->
      files r.2 !! file_at env path = Some (stored env encoding chunk_content)).
Proof.
  intros Hc Hder. cbv zeta.
  destruct (save_chunks_to_dir_post env chunks output_dir filename_deriver
              file_extension encoding fs)
    as (_ & _ & _ & _ & _ & Hret & Hlast).
  split_and!.
  - unfold save_chunk. by rewrite Hder.
  - by apply (Hret i chunk_content "").
  - intros path'. by apply (Hret i chunk_content "").
  - intros Hsv Hlater. apply (Hlast i chunk_content "" Hc Hder Hsv).
    intros k' c' n' Hk' Hc' Hn'. apply (Hlater k'); [done|].
    by apply (Hret k' c' n').
Qed.




Lemma empty_name_falls_back_to_chapter_witness :
  attempted 0 (Pathlib.truediv (Pathlib.parse "out") "chapter_1.md")
    (logged (run writable (save_chunks_to_dir ["x"] (Pathlib.parse "out") no_name "md" "utf-8")
               (start ∅)).2)
  /\ files (run writable (save_chunks_to_dir ["x"] (Pathlib.parse "out") no_name "md" "utf-8")
              (start ∅)).2 !! "out/chapter_1.md" = Some "x".
Proof.
  destruct (empty_name_falls_back_to_chapter writable ["x"] (Pathlib.parse "out") no_name
              "md" "utf-8" ∅ 0 "x" eq_refl eq_refl) as (_ & Hattempt & _ & Hfile).
  split; [exact Hattempt|].
  apply Hfile.
  - vm_compute. log_present.
  - intros k' path' Hk' Hattempted. vm_compute in Hattempted. log_absent. lia.
Defined.


Example three_chunks_files :
  files (run b_unwritable
           (save_chunks_to_dir ["a"; "b"; "c"] (Pathlib.parse "out") name_is_chunk ".md" "utf-8")
           (start ∅)).2
  = {[ "out/a.md" := "a"; "out/c.md" := "c" ]}.
Proof. by vm_compute. Qed.

(** The same call when ["out/b.md"] is opened before the write fails: the
    file is there, and empty. *)
Example three_chunks_interrupted :
  files (run b_interrupted
           (save_chunks_to_dir ["a"; "b"; "c"] (Pathlib.parse "out") name_is_chunk ".md" "utf-8")
           (start ∅)).2
  = {[ "out/a.md" := "a"; "out/b.md" := ""; "out/c.md" := "c" ]}.
Proof. by vm_compute. Qed.

(** Two names for one file: the second chunk replaces the first. *)
Example two_spellings_one_file :
  run aliasing_ascii
    (save_chunks_to_dir ["a"; "sub/../a"] (Pathlib.parse "out") name_is_chunk ".md" "utf-8")
    (start ∅)
  = (true,
     {| files := {[ "out/a.md" := "sub/../a" ]};
        logged :=
          [ (DEBUG, MsgAttempt 0 (Pathlib.truediv (Pathlib.parse "out") "a.md"));
            (INFO, MsgSaved 0 "a.md" (Pathlib.parse "out"));
            (DEBUG, MsgAttempt 1 (Pathlib.truediv (Pathlib.parse "out") "sub/../a.md"));
            (INFO, MsgSaved 1 "a.md" (Pathlib.parse "out"));
            (INFO, MsgAllSaved 2 (Pathlib.parse "out")) ] |}).
Proof. by vm_compute. Qed.

(** An encoding that cannot represent a character stores a replacement. *)
Example ascii_replaces :
  files (run aliasing_ascii
           (save_chunks_to_dir ["caf" +:+ String (Ascii.ascii_of_nat 233) ""]
              (Pathlib.parse "out") (fun _ _ => Returns "menu") ".md" "ascii")
           (start ∅)).2
  = {[ "out/menu.md" := "caf?" ]}.
Proof. by vm_compute. Qed.

(** * More about [sanitize_filename_component] *)

Lemma sub_go_id cls repl f s :
  PyStr.all (fun c => negb (cls c)) s = true -> Re.sub_go cls repl f s = s.
Proof.
  revert f. induction s as [|c s IH]; intros f; [done|]. cbn [PyStr.all Re.sub_go].
  intros [Hc Hs]%andb_prop. apply negb_true_iff in Hc. rewrite Hc. f_equal. by apply IH.
Qed.

Lemma lstrip_id chars s :
  (forall c, PyStr.first s = Some c -> PyStr.mem c chars = false) -> PyStr.lstrip chars s = s.
Proof. destruct s as [|c s]; [done|]. intros H. simpl. by rewrite (H c). Qed.

Lemma rstrip_id chars s :
  (forall c, PyStr.last s = Some c -> PyStr.mem c chars = false) -> PyStr.rstrip chars s = s.
Proof.
  induction s as [|d s IH]; [done|]. rewrite last_cons. intros H. cbn [PyStr.rstrip].
  destruct (PyStr.last s) as [e|] eqn:He.
  - rewrite IH by (by intros c [= <-]; apply H). destruct s; [done | done].
  - apply last_None in He as ->. simpl. by rewrite (H d).
Qed.

Lemma has_double_underscore_cons c s :
  has_double_underscore (String c s) = false ->
  has_double_underscore s = false
  /\ (underscore_char c = true -> forall d, PyStr.first s = Some d -> underscore_char d = false).
Proof.
  cbn [has_double_underscore]. intros [Hhead Hs]%orb_false_elim. split; [done|].
  unfold underscore_char. intros Hc d Hd. rewrite Hc in Hhead. destruct s; by simplify_eq/=.
Qed.

(** Collapsing changes nothing where no two underscores meet. *)
Lemma collapse_id f s :
  has_double_underscore s = false ->
  (f = true -> forall d, PyStr.first s = Some d -> underscore_char d = false) ->
  Re.sub_go underscore_char "_" f s = s.
Proof.
  revert f. induction s as [|c s IH]; intros f Hs Hf; [done|].
  apply has_double_underscore_cons in Hs as [Hs Hnext]. cbn [Re.sub_go].
  destruct (underscore_char c) eqn:Hc.
  - destruct f; [by rewrite (Hf eq_refl c) in Hc|].
    rewrite append_cons, append_nil_l. unfold underscore_char in Hc.
    apply Ascii.eqb_eq in Hc as ->. f_equal. apply IH; [done|]. intros _. by apply Hnext.
  - f_equal. by apply IH.
Qed.

Lemma safe_not_unsafe s :
  PyStr.all safe_char s = true -> PyStr.all (fun c => negb (unsafe_char c)) s = true.
Proof. apply all_impl. intros c Hc. unfold unsafe_char. by rewrite Hc. Qed.

Lemma clean_name_unchanged name : clean_name name -> sanitize_filename_component name = name.
Proof.
  intros (Hne & Hsafe & Hfirst & Hlast & Hdouble).
  rewrite sanitize_unfold, Hne. unfold cleaned, Re.sub_class_plus, PyStr.strip.
  rewrite (sub_go_id unsafe_char) by by apply safe_not_unsafe.
  rewrite lstrip_id, rstrip_id by done.
  rewrite collapse_id by done. rewrite Hne. cbn [orb].
  destruct name as [|c name]; [done|]. cbn [PyStr.all]. by rewrite (Hfirst c eq_refl).
Qed.

Lemma sanitize_clean name : clean_name (sanitize_filename_component name).
Proof.
  split_and!; [apply sanitize_nonempty | apply sanitize_safe | apply sanitize_first
              | apply sanitize_last | apply sanitize_no_double].
Qed.

(** X1: sanitizing twice is sanitizing once. *)
Theorem sanitize_idempotent (name : string) :
  sanitize_filename_component (sanitize_filename_component name)
  = sanitize_filename_component name.
Proof. apply clean_name_unchanged, sanitize_clean. Qed.

(** X2: the names that [sanitize_filename_component] returns unchanged are
    exactly the clean ones: not empty, safe characters only, no dot or
    underscore at either end, no two underscores in a row. *)
Theorem sanitize_fixed_points (name : string) :
  sanitize_filename_component name = name <-> clean_name name.
Proof.
  split; [|apply clean_name_unchanged]. intros <-. apply sanitize_clean.
Qed.

(** X3: the result of [sanitize_filename_component] never holds two
    underscores in a row, whatever the input. *)
Theorem sanitize_has_no_double_underscore (name : string) :
  has_double_underscore (sanitize_filename_component name) = false.
Proof. apply sanitize_no_double. Qed.

Lemma length_sub_go_le cls f s :
  String.length (Re.sub_go cls "_" f s) <= String.length s.
Proof.
  revert f. induction s as [|c s IH]; intros f; [done|]. cbn [Re.sub_go].
  destruct (cls c).
  - destruct f; [specialize (IH true); simpl; lia|].
    rewrite append_cons, append_nil_l. specialize (IH true). simpl. lia.
  - specialize (IH false). simpl. lia.
Qed.

Lemma length_lstrip_le chars s : String.length (PyStr.lstrip chars s) <= String.length s.
Proof.
  destruct (lstrip_split chars s) as [l [Hs _]].
  rewrite Hs at 2. rewrite length_append. lia.
Qed.

Lemma length_rstrip_le chars s : String.length (PyStr.rstrip chars s) <= String.length s.
Proof.
  destruct (rstrip_split chars s) as [r [Hs _]].
  rewrite Hs at 2. rewrite length_append. lia.
Qed.

(** X4: [sanitize_filename_component] never lengthens a name: the result
    is the placeholder ["untitled"], or it is at most as long as the
    input. *)
Theorem sanitize_never_longer (name : string) :
  sanitize_filename_component name = "untitled"
  \/ String.length (sanitize_filename_component name) <= String.length name.
Proof.
  rewrite sanitize_unfold. destruct (PyStr.is_empty name); [by left|].
  destruct (_ || _); [by left|]. right.
  unfold cleaned, Re.sub_class_plus, PyStr.strip.
  etrans; [apply length_sub_go_le|]. etrans; [apply length_rstrip_le|].
  etrans; [apply length_lstrip_le|]. apply length_sub_go_le.
Qed.

(** * More about [save_chunks_to_dir] *)

Import ChunkRecords.

(** Every record that one turn adds is a record of that turn. *)
Lemma save_chunk_records env dir der ext enc i c w :
  exists new,
    logged (run env (save_chunk dir der ext enc i c) w).2 = logged w ++ new
    /\ forall lm, lm ∈ new -> record_of_turn dir der ext i c lm.
Proof.
  rewrite run_save_chunk. unfold record_of_turn.
  destruct (der c i) as [n|e].
  - cbv zeta. unfold before_write.
    destruct (write_answer env _ _ _ _) as [|e|e remains];
      destruct (PyStr.is_empty n) eqn:Hn; cbn;
      rewrite <- ?app_assoc; eexists; (split; [reflexivity|]); cbn.
    all: intros lm Hlm; log_absent; eauto 6.
  - cbn. eexists. split; [reflexivity|]. intros lm Hlm. by log_absent.
Qed.

Lemma save_loop_records env dir der ext enc cs :
  forall i acc w,
  exists new,
    logged (run env (save_loop dir der ext enc i cs acc) w).2 = logged w ++ new
    /\ forall lm, lm ∈ new ->
         exists k c, i <= k /\ cs !! (k - i) = Some c /\ record_of_turn dir der ext k c lm.
Proof.
  induction cs as [|c cs IH]; intros i acc w.
  { exists []. cbn. rewrite app_nil_r. split; [done|]. by intros lm ?%elem_of_nil. }
  rewrite run_save_loop_cons.
  destruct (save_chunk_records env dir der ext enc i c w) as (new1 & Hlog1 & Hrec1).
  destruct (run env (save_chunk dir der ext enc i c) w) as [ok w1]. cbn [snd] in *.
  destruct (IH (S i) (if ok then acc else false) w1) as (new2 & Hlog2 & Hrec2).
  exists (new1 ++ new2). split; [by rewrite Hlog2, Hlog1, app_assoc|].
  intros lm [Hin|Hin]%elem_of_app.
  - exists i, c. rewrite lookup_cons_here. auto.
  - destruct (Hrec2 lm Hin) as (k & c' & Hk & Hc' & Hrec).
    exists k, c'. rewrite lookup_cons_later by lia. split_and!; [lia | done | done].
Qed.

(** The last record of a call: about the whole list, and an error record
    exactly when the flag is [False]. *)
Lemma run_save_chunks_to_dir_summary env chunks dir der ext enc w :
  exists summary,
    msg_index summary.2 = None
    /\ (summary.1 = ERROR <->
        (run env (save_loop dir der ext enc 0 chunks true) w).1 = false)
    /\ run env (save_chunks_to_dir chunks dir der ext enc) w
       = ((run env (save_loop dir der ext enc 0 chunks true) w).1,
          add_log (run env (save_loop dir der ext enc 0 chunks true) w).2 summary).
Proof.
  destruct chunks as [|c cs]; [by exists (INFO, MsgNoChunks dir)|].
  unfold save_chunks_to_dir. rewrite run_bind.
  destruct (run env (save_loop dir der ext enc 0 (c :: cs) true) w) as [[] w'].
  - by exists (INFO, MsgAllSaved (length (c :: cs)) dir).
  - by exists (ERROR, MsgSomeFailed dir).
Qed.

(** Every record of a call is a record of the turn of one chunk, or the
    closing record. *)
Lemma save_chunks_to_dir_records env chunks dir der ext enc fs lm :
  lm ∈ logged (run env (save_chunks_to_dir chunks dir der ext enc) (start fs)).2 ->
  (exists k c, chunks !! k = Some c /\ record_of_turn dir der ext k c lm)
  \/ (msg_index lm.2 = None
      /\ (lm.1 = ERROR <->
          (run env (save_chunks_to_dir chunks dir der ext enc) (start fs)).1 = false)).
Proof.
  destruct (run_save_chunks_to_dir_summary env chunks dir der ext enc (start fs))
    as (summary & Hidx & Hlvl & ->).
  destruct (save_loop_records env dir der ext enc chunks 0 true (start fs))
    as (new & Hlog & Hrec).
  cbn [fst snd add_log logged start] in *. rewrite Hlog, app_nil_l.
  intros [Hin|Hin]%elem_of_app.
  - left. destruct (Hrec lm Hin) as (k & c & _ & Hc & Hr). rewrite Nat.sub_0_r in Hc. eauto.
  - right. apply list_elem_of_singleton in Hin as ->. done.
Qed.

(** X5: [save_chunks_to_dir] touches no file but those that the paths of
    its chunks name, and deletes none: a file that no attempted path names
    holds what it held before the call, and a file that existed before
    still exists after. *)
Theorem save_chunks_to_dir_frame
    (env : Env) (chunks : list string) (output_dir : Pathlib.PurePath)
    (filename_deriver : Deriver) (file_extension encoding : string)
    (fs : gmap string string) :
  let r := run env (save_chunks_to_dir chunks output_dir filename_deriver
                      file_extension encoding) (start fs) in
  (forall f,
     (forall k path, attempted k path (logged r.2) -> file_at env path <> f) ->
     files r.2 !! f = fs !! f)
  /\ (forall f, is_Some (fs !! f) -> is_Some (files r.2 !! f)).
Proof.
  cbv zeta.
  destruct (save_chunks_to_dir_post env chunks output_dir filename_deriver
              file_extension encoding fs)
    as (_ & _ & _ & Hfiles & _ & Hret & _).
  split.
  - intros f Hf. destruct (Hfiles f) as [|(k & c & n & Hc & Hn & -> & _)]; [done|].
    destruct (Hf k (path_of output_dir file_extension k n)); [|done].
    by apply (Hret k c n).
  - intros f Hsome. by destruct (Hfiles f) as [->|(k & c & n & _ & _ & _ & ?)].
Qed.

Lemma save_chunks_to_dir_frame_witness :
  files (run b_interrupted
           (save_chunks_to_dir ["a"; "b"] (Pathlib.parse "out") name_is_chunk ".md" "utf-8")
           (start {[ "out/notes.txt" := "keep" ]})).2 !! "out/notes.txt"
  = ({[ "out/notes.txt" := "keep" ]} : gmap string string) !! "out/notes.txt".
Proof.
  apply (proj1 (save_chunks_to_dir_frame b_interrupted ["a"; "b"] (Pathlib.parse "out")
                  name_is_chunk ".md" "utf-8" {[ "out/notes.txt" := "keep" ]})).
  intros k path Hpath. vm_compute in Hpath. log_absent; by vm_compute.
Defined.

(** X6: when the call returns [True] and the paths of the chunks name
    pairwise different files, every chunk of the list is in its file at the
    end, as the encoding stores it. *)
Theorem save_chunks_to_dir_all_written
    (env : Env) (chunks : list string) (output_dir : Pathlib.PurePath)
    (filename_deriver : Deriver) (file_extension encoding : string)
    (fs : gmap string string) :
  let r := run env (save_chunks_to_dir chunks output_dir filename_deriver
                      file_extension encoding) (start fs) in
  r.1 = true ->
  distinct_files env (logged r.2) ->
  forall k c,
    chunks !! k = Some c ->
    exists path,
      attempted k path (logged r.2)
      /\ files r.2 !! file_at env path = Some (stored env encoding c).
Proof.
  cbv zeta. intros Htrue Hdistinct k c Hc.
  destruct (save_chunks_to_dir_post env chunks output_dir filename_deriver
              file_extension encoding fs)
    as (_ & Hacc & _ & _ & _ & Hret & Hlast).
  assert (Hsaved := proj1 Hacc Htrue).
  destruct (saved_returns env chunks output_dir filename_deriver file_extension encoding
              fs k c Hc) as [n Hn]; [by eapply Hsaved, lookup_lt_Some|].
  exists (path_of output_dir file_extension k n). split; [by apply (Hret k c n)|].
  apply (Hlast k c n Hc Hn); [by eapply Hsaved, lookup_lt_Some|].
  intros k' c' n' Hk' Hc' Hn'.
  apply (Hdistinct k' k); [lia | by apply (Hret k' c' n') | by apply (Hret k c n)].
Qed.

Lemma save_chunks_to_dir_all_written_witness :
  exists path,
    attempted 1 path
      (logged (run aliasing_ascii
                 (save_chunks_to_dir ["a"; "b"] (Pathlib.parse "out") name_is_chunk ".md"
                    "ascii") (start ∅)).2)
    /\ files (run aliasing_ascii
                (save_chunks_to_dir ["a"; "b"] (Pathlib.parse "out") name_is_chunk ".md"
                   "ascii") (start ∅)).2 !! file_at aliasing_ascii path
       = Some "b".
Proof.
  refine (save_chunks_to_dir_all_written aliasing_ascii ["a"; "b"] (Pathlib.parse "out")
            name_is_chunk ".md" "ascii" ∅ eq_refl _ 1 "b" eq_refl).
  intros k k' path path' Hne Hk Hk'. vm_compute in Hk, Hk'. log_absent; by vm_compute.
Defined.

Lemma actual_extension_dot e :
  PyStr.startswith e "." = false -> actual_extension ("." +:+ e) = actual_extension e.
Proof. intros H. unfold actual_extension. by rewrite H. Qed.

Lemma save_chunk_same_extension dir der e e' enc i c :
  actual_extension e = actual_extension e' ->
  save_chunk dir der e enc i c = save_chunk dir der e' enc i c.
Proof. intros H. unfold save_chunk. by rewrite H. Qed.

Lemma run_save_loop_same_extension env dir der e e' enc cs :
  actual_extension e = actual_extension e' ->
  forall i acc w,
    run env (save_loop dir der e enc i cs acc) w = run env (save_loop dir der e' enc i cs acc) w.
Proof.
  intros H. induction cs as [|c cs IH]; intros i acc w; [done|].
  rewrite !run_save_loop_cons, (save_chunk_same_extension dir der e e') by done.
  destruct (run env (save_chunk dir der e' enc i c) w) as [ok w1]. apply IH.
Qed.

(** X7: the leading dot of the extension is optional: for an extension
    that does not start with a dot, the call with the dot put in front
    returns the same flag and leaves the same files and the same log. *)
Theorem save_chunks_to_dir_dot_optional
    (env : Env) (chunks : list string) (output_dir : Pathlib.PurePath)
    (filename_deriver : Deriver) (file_extension encoding : string) (w : World) :
  PyStr.startswith file_extension "." = false ->
  run env (save_chunks_to_dir chunks output_dir filename_deriver
             ("." +:+ file_extension) encoding) w
  = run env (save_chunks_to_dir chunks output_dir filename_deriver
               file_extension encoding) w.
Proof.
  intros Hdot. destruct chunks as [|c cs]; [done|].
  unfold save_chunks_to_dir. rewrite !run_bind.
  by rewrite (run_save_loop_same_extension env output_dir filename_deriver
                ("." +:+ file_extension) file_extension)
    by by apply actual_extension_dot.
Qed.

Lemma save_chunks_to_dir_dot_optional_witness :
  run b_unwritable
    (save_chunks_to_dir ["a"; "b"] (Pathlib.parse "out") name_is_chunk ("." +:+ "md") "utf-8")
    (start ∅)
  = run b_unwritable
      (save_chunks_to_dir ["a"; "b"] (Pathlib.parse "out") name_is_chunk "md" "utf-8")
      (start ∅).
Proof.
  apply (save_chunks_to_dir_dot_optional b_unwritable ["a"; "b"] (Pathlib.parse "out")
           name_is_chunk "md" "utf-8" (start ∅)).
  reflexivity.
Defined.

(** X8: a failure is reported under the name that was in use when the
    exception was raised.  When the deriver returned a name for a chunk,
    every failure record of that chunk carries the derived name, or
    ["chapter_"] and the 1-based index when the derived name was empty;
    when the deriver itself raised, the record carries the initial name
    ["chunk_<index>_unnamed"] and the exception of the deriver. *)
Theorem failure_record_names_the_file
    (env : Env) (chunks : list string) (output_dir : Pathlib.PurePath)
    (filename_deriver : Deriver) (file_extension encoding : string)
    (fs : gmap string string) (k : nat) (c base : string) (e : exn) :
  let r := run env (save_chunks_to_dir chunks output_dir filename_deriver
                      file_extension encoding) (start fs) in
  chunks !! k = Some c ->
  (ERROR, MsgFailed k base output_dir e) ∈ logged r.2 ->
  match filename_deriver c k with
  | Returns n =>
      base = (if PyStr.is_empty n then "chapter_" +:+ PyStr.of_nat (k + 1) else n)
  | Raises e' => base = "chunk_" +:+ PyStr.of_nat k +:+ "_unnamed" /\ e = e'
  end.
Proof.
  cbv zeta. intros Hc Hin.
  destruct (save_chunks_to_dir_records env chunks output_dir filename_deriver
              file_extension encoding fs _ Hin) as [(k' & c' & Hc' & Hrec)|[Hidx _]];
    [|done].
  unfold record_of_turn in Hrec.
  destruct (filename_deriver c' k') as [n|e'] eqn:Hder.
  - destruct Hrec as [[_ ?]|[?|[?|[e' ?]]]]; simplify_eq. by rewrite Hder.
  - simplify_eq. by rewrite Hder.
Qed.

Lemma failure_record_names_the_file_witness :
  "b" = (if PyStr.is_empty "b" then "chapter_" +:+ PyStr.of_nat (1 + 1) else "b").
Proof.
  apply (failure_record_names_the_file b_unwritable ["a"; "b"; "c"] (Pathlib.parse "out")
           name_is_chunk ".md" "utf-8" ∅ 1 "b" "b" OSError eq_refl).
  vm_compute. log_present.
Defined.

(** X9: the flag agrees with the log: [save_chunks_to_dir] returns [True]
    exactly when it logged nothing at the level [ERROR]. *)
Theorem save_chunks_to_dir_true_iff_no_error
    (env : Env) (chunks : list string) (output_dir : Pathlib.PurePath)
    (filename_deriver : Deriver) (file_extension encoding : string)
    (fs : gmap string string) :
  let r := run env (save_chunks_to_dir chunks output_dir filename_deriver
                      file_extension encoding) (start fs) in
  r.1 = true <-> forall lm, lm ∈ logged r.2 -> lm.1 <> ERROR.
Proof.
  cbv zeta.
  destruct (save_chunks_to_dir_post env chunks output_dir filename_deriver
              file_extension encoding fs)
    as (Hex & Hacc & Hrej & _).
  split.
  - intros Htrue lm Hin Hlvl.
    destruct (save_chunks_to_dir_records env chunks output_dir filename_deriver
                file_extension encoding fs lm Hin) as [(k & c & Hc & Hrec)|[_ Hsum]].
    + assert (Hfailed : failed output_dir k
                (logged (run env (save_chunks_to_dir chunks output_dir filename_deriver
                                    file_extension encoding) (start fs)).2)).
      { unfold record_of_turn in Hrec. destruct lm as [lvl m]. cbn in Hlvl. subst lvl.
        destruct (filename_deriver c k) as [n|e'].
        - destruct Hrec as [[_ ?]|[?|[?|[e' ?]]]]; simplify_eq. by eexists _, _.
        - simplify_eq. by eexists _, _. }
      destruct (Hex k) as [[_ Hnf]|[_ Hns]]; [by eapply lookup_lt_Some | done |].
      apply Hns. apply Hacc; [done | by eapply lookup_lt_Some].
    + apply Hsum in Hlvl. congruence.
  - intros Hnone. apply not_false_iff_true. intros Hfalse.
    destruct (Hrej Hfalse) as (k & _ & base & e & Hin). by apply (Hnone _ Hin).
Qed.

(** * More about [derive_filename_from_url] *)

Lemma mem_append c s t : PyStr.mem c (s +:+ t) = PyStr.mem c s || PyStr.mem c t.
Proof.
  induction s as [|d s IH]; [by rewrite append_nil_l|].
  rewrite append_cons. cbn [PyStr.mem]. by rewrite IH, orb_assoc.
Qed.

Lemma split_no_sep c s : PyStr.mem c s = false -> PyStr.split c s = [s].
Proof.
  induction s as [|d s IH]; [done|]. cbn [PyStr.mem PyStr.split].
  intros [Hd Hs]%orb_false_elim. rewrite Ascii.eqb_sym, Hd, (IH Hs). done.
Qed.

Lemma splitroot_relative c s :
  Ascii.eqb c "/" = false -> Pathlib.splitroot (String c s) = ("", String c s).
Proof.
  intros Hc. destruct c as [[] [] [] [] [] [] [] []]; try reflexivity. discriminate Hc.
Qed.

(** A name without a slash that is not ["."] is one part of a path. *)
Lemma parse_component c s :
  PyStr.mem "/" (String c s) = false -> Ascii.eqb c "." = false ->
  Pathlib.parse (String c s) = {| Pathlib.root := ""; Pathlib.parts := [String c s] |}.
Proof.
  intros Hslash Hdot. unfold Pathlib.parse. cbn [PyStr.is_empty].
  assert (Hc : Ascii.eqb c "/" = false).
  { cbn [PyStr.mem] in Hslash. apply orb_false_elim in Hslash as [Hc _].
    by rewrite Ascii.eqb_sym. }
  rewrite (splitroot_relative c s Hc), (split_no_sep _ _ Hslash).
  cbn [List.filter PyStr.is_empty negb andb]. cbn [String.eqb]. by rewrite Hdot.
Qed.

Lemma parse_rooted d :
  PyStr.is_empty (Pathlib.root (Pathlib.parse d)) = false ->
  1 <= length (Pathlib.parts (Pathlib.parse d)).
Proof.
  unfold Pathlib.parse. destruct (PyStr.is_empty d); [done|].
  destruct (Pathlib.splitroot d) as [root rel]. cbn [Pathlib.root Pathlib.parts].
  intros ->. cbn [length]. lia.
Qed.

(** X10: a derived name is one component of a path.  With an extension
    that has no slash, as [".md"] and [".html"], joining a directory with the
    name gives the parts of the directory followed by the name: the file is
    directly inside the directory, whatever the URL was, and the name of the
    joined path is the derived name. *)
Theorem derived_name_stays_in_directory
    (lib : UrlParse.Checks) (url ext out directory : string) :
  derive_filename_from_url lib url ext = Returns out ->
  PyStr.mem "/" ext = false ->
  Pathlib.truediv (Pathlib.parse directory) out
  = {| Pathlib.root := Pathlib.root (Pathlib.parse directory);
       Pathlib.parts := Pathlib.parts (Pathlib.parse directory) ++ [out] |}
  /\ Pathlib.name (Pathlib.truediv (Pathlib.parse directory) out) = out.
Proof.
  rewrite derive_unfold. destruct (UrlParse.urlparse lib url) as [parsed|e]; [|done].
  pose proof (truncated_stem (name_base_of parsed)) as Hstem. cbv zeta in Hstem.
  revert Hstem.
  generalize (PyStr.take max_len_base (sanitize_filename_component (name_base_of parsed))).
  intros [|c stem] (Hne & _ & Hsafe & Hfirst) [= <-] Hext; [done|].
  assert (Hslash : PyStr.mem "/" (String c stem +:+ ext) = false).
  { rewrite mem_append, Hext, orb_false_r. by apply (all_not_mem safe_char). }
  assert (Hdot : Ascii.eqb c "." = false).
  { specialize (Hfirst c eq_refl). cbn [PyStr.mem] in Hfirst.
    by apply orb_false_elim in Hfirst as [? _]. }
  rewrite append_cons in *.
  assert (Hjoin : Pathlib.truediv (Pathlib.parse directory) (String c (stem +:+ ext))
                  = {| Pathlib.root := Pathlib.root (Pathlib.parse directory);
                       Pathlib.parts := Pathlib.parts (Pathlib.parse directory)
                                        ++ [String c (stem +:+ ext)] |}).
  { unfold Pathlib.truediv. by rewrite (parse_component c _ Hslash Hdot). }
  split; [exact Hjoin|]. rewrite Hjoin. unfold Pathlib.name. cbn [Pathlib.root Pathlib.parts].
  rewrite length_app. cbn [length].
  replace (_ =? _) with false; [apply last_last|].
  symmetry. apply Nat.eqb_neq.
  destruct (PyStr.is_empty (Pathlib.root (Pathlib.parse directory))) eqn:Hroot; [lia|].
  apply parse_rooted in Hroot. lia.
Qed.

Lemma derived_name_stays_in_directory_witness :
  derive_filename_from_url lenient_checks "https://deepwiki.com/Org/../../etc/passwd" ".md"
  = Returns "passwd.md"
  /\ Pathlib.to_str (Pathlib.truediv (Pathlib.parse "/home/user/out") "passwd.md")
     = "/home/user/out/passwd.md".
Proof.
  split; [reflexivity|].
  rewrite (proj1 (derived_name_stays_in_directory lenient_checks
                    "https://deepwiki.com/Org/../../etc/passwd" ".md" "passwd.md"
                    "/home/user/out" eq_refl eq_refl)).
  reflexivity.
Defined.


(** * More about [save_markdown_from_url] *)

Module RunFacts.
Import SaveMarkdown Runs.

Lemma runs_bind {A B : Type} (p : Prog Op A) (k : A -> Prog Op B) t b :
  runs (p ≫= k) t b <-> exists a t1 t2, t = t1 ++ t2 /\ runs p t1 a /\ runs (k a) t2 b.
Proof.
  revert t. induction p as [a|X e h IH]; intros t.
  - cbn. split.
    + intros H. by exists a, [], t.
    + by intros (a' & t1 & t2 & -> & [-> ->] & H).
  - change (runs (Vis e h ≫= k) t b)
      with (exists x t', t = event_of e x :: t' /\ runs (h x ≫= k) t' b).
    split.
    + intros (x & t' & -> & H). apply IH in H as (a & t1 & t2 & -> & H1 & H2).
      exists a, (event_of e x :: t1), t2. split; [done|]. split; [|done]. by exists x, t1.
    + intros (a & t1 & t2 & -> & (x & t1' & -> & H1) & H2).
      exists x, (t1' ++ t2). split; [done|]. apply IH. by exists a, t1', t2.
Qed.

(** Unfold one operation of a run. *)
Ltac run_step H :=
  let x := fresh "x" in
  let t := fresh "t" in
  cbn [runs] in H; destruct H as (x & t & -> & H).

Tactic Notation "run_answer" hyp(H) "as" simple_intropattern(answer) :=
  cbn [runs] in H; destruct H as (answer & ? & -> & H).

Ltac run_end H := cbn [runs] in H; destruct H as [-> <-].

Lemma runs_save_original_html md ohsp enc html t u :
  runs (save_original_html md ohsp enc html) t u ->
  Forall (html_event (html_path md ohsp) enc html) t.
Proof.
  unfold save_original_html.
  set (path := match _ with Some path => path | None => _ end).
  assert (path = html_path md ohsp) as ->
    by (subst path; unfold html_path; destruct ohsp as [p|]; [by destruct (PyStr.is_empty p) | done]).
  generalize (html_path md ohsp). clear md ohsp. intros path H.
  run_step H.
  destruct (PyStr.is_empty (OsPath.dirname path)) eqn:Hdir.
  - run_step H. destruct x0 as [[]|e].
    + run_step H. run_end H. by repeat constructor.
    + destruct e; run_step H; run_end H; by repeat constructor.
  - run_step H. destruct x0.
    + run_step H. destruct x0 as [[]|e].
      * run_step H. run_end H. by repeat constructor.
      * destruct e; run_step H; run_end H; by repeat constructor.
    + run_step H. destruct x0 as [[]|e].
      * run_step H. run_step H. destruct x1 as [[]|e].
        -- run_step H. run_end H. by repeat constructor.
        -- destruct e; run_step H; run_end H; by repeat constructor.
      * destruct e; run_step H; run_end H; by repeat constructor.
Qed.

Lemma runs_extract_and_save extract d md sep henc menc html t b :
  runs (extract_and_save extract d md sep henc menc html) t b ->
  exists answer,
    Forall (markdown_event (extract html) md sep (default henc menc) answer) t
    /\ EvSave (extract html) md sep (default henc menc) answer ∈ t
    /\ (b = true <-> answer = Returns tt).
Proof.
  unfold extract_and_save. intros H. run_step H.
  destruct (extract html) as [|c cs] eqn:Hchunks.
  all: run_step H; run_step H; run_answer H as answer; exists answer.
  all: destruct answer as [[]|e]; [|destruct e]; run_step H; run_end H.
  all: split_and!; [by repeat constructor | log_present | done].
Qed.

Lemma requested_app t1 t2 : requested (t1 ++ t2) = requested t1 ++ requested t2.
Proof.
  induction t1 as [|ev t1 IH]; [done|]. destruct ev; cbn; by rewrite ?IH.
Qed.

Lemma requested_none (P : Event -> Prop) t :
  (forall url h timeout answer, ~ P (EvGet url h timeout answer)) ->
  Forall P t -> requested t = [].
Proof.
  intros HP. induction 1 as [|ev t Hev _ IH]; [done|].
  destruct ev; cbn; try done. by destruct (HP _ _ _ _ Hev).
Qed.

Lemma requested_logs t : Forall is_log t -> requested t = [].
Proof. apply requested_none. intros ? ? ? ? H. exact H. Qed.

Lemma requested_html path enc html t : Forall (html_event path enc html) t -> requested t = [].
Proof. apply requested_none. intros ? ? ? ? H. exact H. Qed.

Lemma requested_markdown chunks path sep enc answer t :
  Forall (markdown_event chunks path sep enc answer) t -> requested t = [].
Proof. apply requested_none. intros ? ? ? ? H. exact H. Qed.

(** ** [os.path.splitext] *)

Lemma take_drop n s : PyStr.take n s +:+ PyStr.drop n s = s.
Proof.
  revert s. induction n as [|n IH]; intros [|c s]; cbn [PyStr.take PyStr.drop]; try done.
  by rewrite append_cons, IH.
Qed.

Lemma rfind_drop c s i : PyStr.rfind c s = Some i -> exists rest, PyStr.drop i s = String c rest.
Proof.
  revert i. induction s as [|d s IH]; intros i; cbn [PyStr.rfind]; [done|].
  destruct (PyStr.rfind c s) as [j|].
  - intros [= <-]. cbn [PyStr.drop]. by apply IH.
  - destruct (Ascii.eqb_spec d c) as [->|]; [|done]. intros [= <-]. by eexists.
Qed.

Lemma append_inv_head s t1 t2 : s +:+ t1 = s +:+ t2 -> t1 = t2.
Proof.
  induction s as [|c s IH]; [by rewrite !append_nil_l|].
  rewrite !append_cons. intros [= H]. by apply IH.
Qed.

(** The two halves of [splitext] make up the path, and the extension is
    empty or starts with a dot. *)
Lemma splitext_spec p :
  (OsPath.splitext p).1 +:+ (OsPath.splitext p).2 = p
  /\ ((OsPath.splitext p).2 = "" \/ exists rest, (OsPath.splitext p).2 = String "." rest).
Proof.
  assert (Hwhole : p +:+ "" = p).
  { induction p as [|c p IH]; [done|]. by rewrite append_cons, IH. }
  unfold OsPath.splitext. destruct (PyStr.rfind "." p) as [dotIndex|] eqn:Hdot.
  - destruct (_ && _).
    + cbn [fst snd]. split; [apply take_drop|]. right. by apply rfind_drop.
    + cbn [fst snd]. split; [done | by left].
  - cbn [fst snd]. split; [done | by left].
Qed.

Lemma derived_html_path_differs md : (OsPath.splitext md).1 +:+ "_original.html" <> md.
Proof.
  destruct (splitext_spec md) as [Hmd Hext]. intros H. rewrite <- Hmd in H at 2.
  apply append_inv_head in H. rewrite <- H in Hext. by destruct Hext as [|[]].
Qed.

(** ** The last record of a run *)

Lemma last_later {A : Type} (x y : A) l : last l = Some y -> last (x :: l) = Some y.
Proof. by destruct l. Qed.

Lemma last_app_later {A : Type} (y : A) l1 l2 : last l2 = Some y -> last (l1 ++ l2) = Some y.
Proof. intros H. induction l1 as [|x l1 IH]; [done|]. by apply last_later. Qed.

Lemma last_extract_and_save extract d md sep henc menc html t b :
  runs (extract_and_save extract d md sep henc menc html) t b ->
  exists lvl msg,
    last t = Some (EvLog lvl msg)
    /\ if b then lvl = DEBUG /\ msg = MsgMarkdownSaved else lvl = ERROR.
Proof.
  unfold extract_and_save. intros H. run_step H.
  destruct (extract html) as [|c cs] eqn:Hchunks.
  all: run_step H; run_step H; run_answer H as answer.
  all: destruct answer as [[]|e]; [|destruct e]; run_step H; run_end H.
  all: by eexists _, _.
Qed.

Section RunsOfSaveMarkdown.

Context {Regex : Type} (extract_chunks_from_html : string -> list string).
Context (markdown_output_path : string) (keep_original_html : bool)
  (original_html_save_path : option string) (sep html_content_encoding : string)
  (markdown_file_encoding : option string)
  (request_headers : option (gmap string string)) (request_timeout : Z).

Lemma runs_download_and_save d t b :
  runs (download_and_save extract_chunks_from_html d markdown_output_path
          keep_original_html original_html_save_path sep html_content_encoding
          markdown_file_encoding request_headers request_timeout) t b ->
  requested_shape extract_chunks_from_html markdown_output_path keep_original_html
    original_html_save_path sep html_content_encoding markdown_file_encoding
    request_headers request_timeout d t b.
Proof.
  unfold download_and_save, requested_shape. intros H. run_step H. run_answer H as answer.
  eexists _, answer, _. split; [reflexivity|]. split; [done|].
  destruct answer as [content|e].
  - run_answer H as decoded. exists decoded. eexists. split; [reflexivity|].
    destruct decoded as [html_text|e].
    + run_step H. unfold decoded_shape. destruct keep_original_html.
      * apply (runs_bind (save_original_html _ _ _ _)) in H
          as (u & t_html & t_md & -> & Hhtml & Hmd).
        apply runs_extract_and_save in Hmd as (ans & Hmd & Hin & Hb).
        apply runs_save_original_html in Hhtml.
        by eexists _, t_html, t_md, ans.
      * apply (runs_bind (mret tt)) in H as (u & t_html & t_md & -> & [-> _] & Hmd).
        apply runs_extract_and_save in Hmd as (ans & Hmd & Hin & Hb).
        by eexists _, [], t_md, ans.
    + destruct e; run_step H; run_end H; by repeat constructor.
  - destruct e; run_step H; run_end H; by repeat constructor.
Qed.

(** A run of [save_markdown_from_url]: rejected with log records only, or
    a request to a URL under the DeepWiki base. *)
Lemma runs_save_markdown_from_url (MARKDOWN_CHUNK_REGEX : option Regex) target_url t b :
  runs (save_markdown_from_url MARKDOWN_CHUNK_REGEX extract_chunks_from_html target_url
          markdown_output_path keep_original_html original_html_save_path sep
          html_content_encoding markdown_file_encoding request_headers request_timeout) t b ->
  (b = false /\ Forall is_log t)
  \/ exists lg d t',
       t = lg :: t' /\ is_log lg
       /\ PyStr.startswith d DEEPWIKI_BASE_URL = true
       /\ (d = target_url
           \/ exists rest, target_url = GITHUB_BASE_URL +:+ rest
                           /\ d = DEEPWIKI_BASE_URL +:+ rest)
       /\ requested_shape extract_chunks_from_html markdown_output_path keep_original_html
            original_html_save_path sep html_content_encoding markdown_file_encoding
            request_headers request_timeout d t' b.
Proof.
  unfold save_markdown_from_url. intros H.
  destruct MARKDOWN_CHUNK_REGEX as [pattern|];
    [|left; run_step H; run_end H; by repeat constructor].
  destruct (PyStr.startswith (url_for_prefix_check target_url) DEEPWIKI_BASE_URL) eqn:Hd.
  - right. run_step H. apply runs_download_and_save in H.
    eexists _, target_url, _. split_and!; try done; [|by left].
    by apply prefix_check_startswith.
  - destruct (PyStr.startswith (url_for_prefix_check target_url) GITHUB_BASE_URL) eqn:Hg.
    + right. run_step H. apply runs_download_and_save in H.
      eexists _, _, _. split_and!; try done; [apply startswith_append|].
      right. eexists. split; [|done]. by apply startswith_drop, prefix_check_startswith.
    + left. run_step H. run_step H. run_end H. by repeat constructor.
Qed.

Lemma requested_of_decoded html t b :
  decoded_shape extract_chunks_from_html markdown_output_path keep_original_html
    original_html_save_path sep html_content_encoding markdown_file_encoding html t b ->
  requested t = [].
Proof.
  intros (lg & t_html & t_md & answer & -> & Hlg & Hhtml & Hmd & _).
  destruct lg; try done. cbn. rewrite requested_app.
  rewrite (requested_markdown _ _ _ _ _ t_md Hmd).
  destruct keep_original_html; [|by subst].
  by rewrite (requested_html _ _ _ t_html Hhtml).
Qed.

Lemma requested_of_shape d t b :
  requested_shape extract_chunks_from_html markdown_output_path keep_original_html
    original_html_save_path sep html_content_encoding markdown_file_encoding
    request_headers request_timeout d t b ->
  requested t = [d].
Proof.
  intros (lg & answer & t1 & -> & Hlg & Hrest). destruct lg; try done. cbn. f_equal.
  destruct answer as [content|e].
  - destruct Hrest as (decoded & t2 & -> & Hrest). cbn. destruct decoded as [html|e].
    + by eapply requested_of_decoded.
    + destruct Hrest as [_ Hlogs]. by apply requested_logs.
  - destruct Hrest as [_ Hlogs]. by apply requested_logs.
Qed.

(** X11: a run makes at most one request, and the URL requested is under
    ["https://deepwiki.com/"]: it is the input as given, or the input with
    the GitHub base replaced by the DeepWiki base. *)
Theorem requests_go_to_deepwiki (MARKDOWN_CHUNK_REGEX : option Regex) target_url t b :
  runs (save_markdown_from_url MARKDOWN_CHUNK_REGEX extract_chunks_from_html target_url
          markdown_output_path keep_original_html original_html_save_path sep
          html_content_encoding markdown_file_encoding request_headers request_timeout) t b ->
  length (requested t) <= 1
  /\ forall url,
       url ∈ requested t ->
       PyStr.startswith url DEEPWIKI_BASE_URL = true
       /\ (url = target_url
           \/ exists rest, target_url = GITHUB_BASE_URL +:+ rest
                           /\ url = DEEPWIKI_BASE_URL +:+ rest).
Proof.
  intros [[_ Hlogs]|(lg & d & t' & -> & Hlg & Hbase & Hd & Hshape)]%runs_save_markdown_from_url.
  - rewrite requested_logs by done. split; [cbn; lia | by intros url ?%elem_of_nil].
  - destruct lg; try done. cbn. rewrite (requested_of_shape d t' b) by done.
    split; [cbn; lia|]. by intros url ->%list_elem_of_singleton.
Qed.

(** The four kinds of run: rejected, fetched and decoded, not decoded,
    not fetched. *)
Ltac run_cases H :=
  apply runs_save_markdown_from_url in H
    as [[Hb Hlogs]|(lg & d & t' & -> & Hlg & Hbase & Hd
                    & (lg2 & answer & t1 & -> & Hlg2 & Hrest))];
  [|destruct answer as [content|e];
    [destruct Hrest as (decoded & t2 & -> & Hrest);
     destruct decoded as [html|e];
     [destruct Hrest as (lg3 & t_html & t_md & ans & -> & Hlg3 & Hhtml & Hmd & Hsave & Hans)
     |destruct Hrest as [Hb Hlogs]]
    |destruct Hrest as [Hb Hlogs]]].

(** Where an event of a run can sit. *)
Ltac event_cases Hin :=
  repeat (apply elem_of_cons in Hin as [Hin|Hin]; [try subst|]);
  try (apply elem_of_app in Hin as [Hin|Hin]).

Lemma in_logs ev t : Forall is_log t -> ev ∈ t -> is_log ev.
Proof. intros H. by apply Forall_forall. Qed.

Lemma log_not_file ev : is_log ev -> ~ is_file_event ev.
Proof. destruct ev; cbn; tauto. Qed.

Lemma logs_not_file t : Forall is_log t -> Forall (fun ev => ~ is_file_event ev) t.
Proof. intros H. apply (Forall_impl _ _ _ H), log_not_file. Qed.

(** What every event of a run is. *)
Lemma run_inventory (MARKDOWN_CHUNK_REGEX : option Regex) target_url t b ev :
  runs (save_markdown_from_url MARKDOWN_CHUNK_REGEX extract_chunks_from_html target_url
          markdown_output_path keep_original_html original_html_save_path sep
          html_content_encoding markdown_file_encoding request_headers request_timeout) t b ->
  ev ∈ t ->
  match ev with
  | EvLog _ _ => True
  | EvGet _ headers timeout _ =>
      headers = effective_headers request_headers /\ timeout = request_timeout
  | EvDecode content encoding _ =>
      encoding = html_content_encoding
      /\ exists url headers timeout, EvGet url headers timeout (Returns content) ∈ t
  | EvExists path _ | EvMakeDirs path _ =>
      keep_original_html = true
      /\ path = OsPath.dirname (html_path markdown_output_path original_html_save_path)
      /\ PyStr.is_empty path = false
  | EvWrite path encoding content _ =>
      keep_original_html = true
      /\ path = html_path markdown_output_path original_html_save_path
      /\ encoding = html_content_encoding
      /\ exists raw, EvDecode raw html_content_encoding (Returns content) ∈ t
  | EvSave chunks path sep' encoding answer =>
      path = markdown_output_path /\ sep' = sep
      /\ encoding = default html_content_encoding markdown_file_encoding
      /\ (b = true <-> answer = Returns tt)
      /\ exists raw html_text,
           EvDecode raw html_content_encoding (Returns html_text) ∈ t
           /\ chunks = extract_chunks_from_html html_text
  end.
Proof.
  intros H Hin. run_cases H.
  - apply (in_logs _ _ Hlogs) in Hin. by destruct ev.
  - event_cases Hin.
    + by destruct lg.
    + by destruct lg2.
    + done.
    + split; [done|]. eexists _, _, _. log_present.
    + by destruct lg3.
    + destruct keep_original_html; [|by subst; apply elem_of_nil in Hin].
      apply (proj1 (Forall_forall _ _) Hhtml) in Hin.
      destruct ev; try done.
      * by destruct Hin as [-> ->].
      * by destruct Hin as [-> ->].
      * destruct Hin as (-> & -> & ->). split_and!; try done. eexists. log_present.
    + apply (proj1 (Forall_forall _ _) Hmd) in Hin.
      destruct ev; try done. destruct Hin as (-> & -> & -> & -> & ->).
      split_and!; try done. eexists _, _. split; [log_present | done].
  - event_cases Hin.
    + by destruct lg.
    + by destruct lg2.
    + done.
    + split; [done|]. eexists _, _, _. log_present.
    + apply (in_logs _ _ Hlogs) in Hin. by destruct ev.
  - event_cases Hin.
    + by destruct lg.
    + by destruct lg2.
    + done.
    + apply (in_logs _ _ Hlogs) in Hin. by destruct ev.
Qed.

(** X12: the request carries the caller's headers over a default
    [User-Agent]: the caller's [User-Agent] when there is one, the default
    one otherwise, every other header exactly as the caller gave it, and
    the caller's timeout. *)
Theorem request_carries_headers
    (MARKDOWN_CHUNK_REGEX : option Regex) target_url t b url headers timeout answer :
  runs (save_markdown_from_url MARKDOWN_CHUNK_REGEX extract_chunks_from_html target_url
          markdown_output_path keep_original_html original_html_save_path sep
          html_content_encoding markdown_file_encoding request_headers request_timeout) t b ->
  EvGet url headers timeout answer ∈ t ->
  timeout = request_timeout
  /\ headers !! "User-Agent"
     = Some (match request_headers with
             | Some given => default default_user_agent (given !! "User-Agent")
             | None => default_user_agent
             end)
  /\ forall name,
       name <> "User-Agent" ->
       headers !! name = match request_headers with
                         | Some given => given !! name
                         | None => None
                         end.
Proof.
  intros H Hin. destruct (run_inventory _ _ _ _ _ H Hin) as [-> ->].
  split; [done|]. unfold effective_headers.
  destruct request_headers as [given|].
  - split.
    + rewrite lookup_union, lookup_singleton_eq. by destruct (given !! "User-Agent").
    + intros name Hname. rewrite lookup_union, lookup_singleton_ne by done.
      by destruct (given !! name).
  - split; [apply lookup_singleton_eq|]. intros name Hname. by apply lookup_singleton_ne.
Qed.

(** X13: a fetch that fails ends the run: when the request or the decoding
    of its content raises, the result is [False] and the run has no
    operation on the file system. *)
Theorem failed_fetch_aborts (MARKDOWN_CHUNK_REGEX : option Regex) target_url t b :
  runs (save_markdown_from_url MARKDOWN_CHUNK_REGEX extract_chunks_from_html target_url
          markdown_output_path keep_original_html original_html_save_path sep
          html_content_encoding markdown_file_encoding request_headers request_timeout) t b ->
  (exists url headers timeout e, EvGet url headers timeout (Raises e) ∈ t)
  \/ (exists content encoding e, EvDecode content encoding (Raises e) ∈ t) ->
  b = false /\ forall ev, ev ∈ t -> ~ is_file_event ev.
Proof.
  intros H Hraise.
  assert (Hquiet : forall lg lg2 get rest,
            is_log lg -> is_log lg2 -> ~ is_file_event get ->
            Forall (fun ev => ~ is_file_event ev) rest ->
            forall ev, ev ∈ lg :: lg2 :: get :: rest -> ~ is_file_event ev).
  { intros lg lg2 get rest Hlg Hlg2 Hget Hrest ev Hin. event_cases Hin.
    - by apply log_not_file.
    - by apply log_not_file.
    - done.
    - by apply (proj1 (Forall_forall _ _) Hrest). }
  run_cases H.
  - split; [done|]. intros ev Hin. by apply log_not_file, (in_logs _ _ Hlogs).
  - exfalso. destruct Hraise as [(? & ? & ? & ? & Hin)|(? & ? & ? & Hin)].
    all: event_cases Hin; try done.
    all: try (destruct keep_original_html; [|by subst; apply elem_of_nil in Hin]).
    all: try (by apply (proj1 (Forall_forall _ _) Hhtml) in Hin).
    all: by apply (proj1 (Forall_forall _ _) Hmd) in Hin.
  - split; [done|]. apply Hquiet; try done; [by intros []|].
    constructor; [by intros [] | by apply logs_not_file].
  - split; [done|]. apply Hquiet; try done; [by intros []|]. by apply logs_not_file.
Qed.

(** X14: the result is the outcome of the Markdown write alone: a run
    returns [True] exactly when [save_chunks_to_path] was called and
    returned; whether the original HTML could be saved plays no part. *)
Theorem true_iff_markdown_saved (MARKDOWN_CHUNK_REGEX : option Regex) target_url t b :
  runs (save_markdown_from_url MARKDOWN_CHUNK_REGEX extract_chunks_from_html target_url
          markdown_output_path keep_original_html original_html_save_path sep
          html_content_encoding markdown_file_encoding request_headers request_timeout) t b ->
  b = true <-> exists chunks path sep' encoding, EvSave chunks path sep' encoding (Returns tt) ∈ t.
Proof.
  intros H. split.
  - intros ->. run_cases H; try done.
    apply proj1 in Hans. rewrite (Hans eq_refl) in Hsave.
    eexists _, _, _, _. do 5 apply list_elem_of_further. apply elem_of_app. by right.
  - intros (chunks & path & sep' & encoding & Hin).
    destruct (run_inventory _ _ _ _ _ H Hin) as (_ & _ & _ & Hb & _). by apply Hb.
Qed.

(** X15: when the HTML is not to be kept, a run does nothing for it: no
    test for a directory, no directory made, no file written other than
    through [save_chunks_to_path]. *)
Theorem html_not_kept_not_touched (MARKDOWN_CHUNK_REGEX : option Regex) target_url t b :
  keep_original_html = false ->
  runs (save_markdown_from_url MARKDOWN_CHUNK_REGEX extract_chunks_from_html target_url
          markdown_output_path keep_original_html original_html_save_path sep
          html_content_encoding markdown_file_encoding request_headers request_timeout) t b ->
  forall ev,
    ev ∈ t ->
    match ev with
    | EvExists _ _ | EvMakeDirs _ _ | EvWrite _ _ _ _ => False
    | _ => True
    end.
Proof.
  intros Hkeep H ev Hin. assert (Hev := run_inventory _ _ _ _ _ H Hin).
  destruct ev; try done; destruct Hev as [Hev _]; congruence.
Qed.

(** X16: the HTML is saved as it was decoded: every write of a run goes to
    the path given for the HTML, or, when none or an empty one was given,
    to the Markdown path with its extension replaced by ["_original.html"];
    it uses the encoding of the download and writes the text that the
    decoding returned. *)
Theorem html_saved_as_decoded
    (MARKDOWN_CHUNK_REGEX : option Regex) target_url t b path encoding content answer :
  runs (save_markdown_from_url MARKDOWN_CHUNK_REGEX extract_chunks_from_html target_url
          markdown_output_path keep_original_html original_html_save_path sep
          html_content_encoding markdown_file_encoding request_headers request_timeout) t b ->
  EvWrite path encoding content answer ∈ t ->
  keep_original_html = true
  /\ path = match original_html_save_path with
            | Some given =>
                if PyStr.is_empty given
                then (OsPath.splitext markdown_output_path).1 +:+ "_original.html"
                else given
            | None => (OsPath.splitext markdown_output_path).1 +:+ "_original.html"
            end
  /\ encoding = html_content_encoding
  /\ exists raw, EvDecode raw html_content_encoding (Returns content) ∈ t.
Proof. intros H Hin. apply (run_inventory _ _ _ _ _ H Hin). Qed.

(** X17: the Markdown is written from the decoded page, and always when
    there is one.  A call of [save_chunks_to_path] in a run gets the chunks
    extracted from the decoded text, the Markdown path, the separator, and
    the Markdown encoding or, when none was given, the encoding of the
    download; and a run in which the page was decoded makes that call, even
    when no chunk was found or the HTML could not be saved. *)
Theorem markdown_saved_from_decoded_page
    (MARKDOWN_CHUNK_REGEX : option Regex) target_url t b :
  runs (save_markdown_from_url MARKDOWN_CHUNK_REGEX extract_chunks_from_html target_url
          markdown_output_path keep_original_html original_html_save_path sep
          html_content_encoding markdown_file_encoding request_headers request_timeout) t b ->
  (forall chunks path sep' encoding answer,
     EvSave chunks path sep' encoding answer ∈ t ->
     path = markdown_output_path /\ sep' = sep
     /\ encoding = match markdown_file_encoding with
                   | Some given => given
                   | None => html_content_encoding
                   end
     /\ exists raw html_text,
          EvDecode raw html_content_encoding (Returns html_text) ∈ t
          /\ chunks = extract_chunks_from_html html_text)
  /\ (forall raw encoding html_text,
        EvDecode raw encoding (Returns html_text) ∈ t ->
        exists answer,
          EvSave (extract_chunks_from_html html_text) markdown_output_path sep
            match markdown_file_encoding with
            | Some given => given
            | None => html_content_encoding
            end answer ∈ t).
Proof.
  intros H. split.
  - intros chunks path sep' encoding answer Hin.
    destruct (run_inventory _ _ _ _ _ H Hin) as (-> & -> & -> & _ & Hraw).
    split_and!; try done; by destruct markdown_file_encoding.
  - intros raw encoding html_text Hin.
    assert (Hdefault : default html_content_encoding markdown_file_encoding
                       = match markdown_file_encoding with
                         | Some given => given
                         | None => html_content_encoding
                         end) by by destruct markdown_file_encoding.
    rewrite <- Hdefault. run_cases H.
    + apply (in_logs _ _ Hlogs) in Hin. done.
    + exists ans. event_cases Hin; try by (destruct lg || destruct lg2 || destruct lg3).
      * simplify_eq. do 5 apply list_elem_of_further. apply elem_of_app. by right.
      * destruct keep_original_html; [|by subst; apply elem_of_nil in Hin].
        by apply (proj1 (Forall_forall _ _) Hhtml) in Hin.
      * by apply (proj1 (Forall_forall _ _) Hmd) in Hin.
    + exfalso. event_cases Hin; try by (destruct lg || destruct lg2).
      by apply (in_logs _ _ Hlogs) in Hin.
    + exfalso. event_cases Hin; try by (destruct lg || destruct lg2).
      by apply (in_logs _ _ Hlogs) in Hin.
Qed.

(** X18: when no path is given for the HTML, or an empty one, the HTML
    never goes to the path of the Markdown: every write of the run has
    another path. *)
Theorem derived_html_path_is_not_markdown_path
    (MARKDOWN_CHUNK_REGEX : option Regex) target_url t b path encoding content answer :
  original_html_save_path = None \/ original_html_save_path = Some "" ->
  runs (save_markdown_from_url MARKDOWN_CHUNK_REGEX extract_chunks_from_html target_url
          markdown_output_path keep_original_html original_html_save_path sep
          html_content_encoding markdown_file_encoding request_headers request_timeout) t b ->
  EvWrite path encoding content answer ∈ t ->
  path <> markdown_output_path.
Proof.
  intros Hgiven H Hin. destruct (run_inventory _ _ _ _ _ H Hin) as (_ & -> & _).
  unfold html_path. destruct Hgiven as [->| ->]; apply derived_html_path_differs.
Qed.

Lemma last_download_and_save d t b :
  runs (download_and_save extract_chunks_from_html d markdown_output_path
          keep_original_html original_html_save_path sep html_content_encoding
          markdown_file_encoding request_headers request_timeout) t b ->
  exists lvl msg,
    last t = Some (EvLog lvl msg)
    /\ if b then lvl = DEBUG /\ msg = MsgMarkdownSaved else lvl = ERROR.
Proof.
  unfold download_and_save. intros H. run_step H. run_answer H as answer.
  destruct answer as [content|e].
  - run_answer H as decoded. destruct decoded as [html_text|e].
    + run_step H.
      assert (Hlast : forall t_html t_md,
                runs (extract_and_save extract_chunks_from_html d markdown_output_path sep
                        html_content_encoding markdown_file_encoding html_text) t_md b ->
                forall e1 e2 e3 e4,
                exists lvl msg,
                  last (e1 :: e2 :: e3 :: e4 :: t_html ++ t_md) = Some (EvLog lvl msg)
                  /\ if b then lvl = DEBUG /\ msg = MsgMarkdownSaved else lvl = ERROR).
      { intros t_html t_md (lvl & msg & Hlast & Hb)%last_extract_and_save e1 e2 e3 e4.
        exists lvl, msg. split; [|done]. do 4 apply last_later. by apply last_app_later. }
      destruct keep_original_html.
      * apply (runs_bind (save_original_html _ _ _ _)) in H
          as (u & t_html & t_md & -> & _ & Hmd). by apply Hlast.
      * apply (runs_bind (mret tt)) in H as (u & t_html & t_md & -> & _ & Hmd).
        by apply Hlast.
    + destruct e; run_step H; run_end H; by eexists _, _.
  - destruct e; run_step H; run_end H; by eexists _, _.
Qed.

(** X19: the last operation of a run is the log record of its outcome: a
    run that returns [True] ends with the [DEBUG] record that the Markdown
    was saved, and a run that returns [False] ends with an [ERROR] record,
    or with the [CRITICAL] one when the pattern did not compile.  No failure
    is silent. *)
Theorem run_ends_with_its_outcome (MARKDOWN_CHUNK_REGEX : option Regex) target_url t b :
  runs (save_markdown_from_url MARKDOWN_CHUNK_REGEX extract_chunks_from_html target_url
          markdown_output_path keep_original_html original_html_save_path sep
          html_content_encoding markdown_file_encoding request_headers request_timeout) t b ->
  exists lvl msg,
    last t = Some (EvLog lvl msg)
    /\ match b, MARKDOWN_CHUNK_REGEX with
       | true, _ => lvl = DEBUG /\ msg = MsgMarkdownSaved
       | false, Some _ => lvl = ERROR
       | false, None => lvl = CRITICAL
       end.
Proof.
  unfold save_markdown_from_url. intros H.
  destruct MARKDOWN_CHUNK_REGEX as [pattern|]; [|run_step H; run_end H; by eexists _, _].
  assert (Hrest : forall d t',
            runs (download_and_save extract_chunks_from_html d markdown_output_path
                    keep_original_html original_html_save_path sep html_content_encoding
                    markdown_file_encoding request_headers request_timeout) t' b ->
            forall lg,
            exists lvl msg,
              last (lg :: t') = Some (EvLog lvl msg)
              /\ match b with
                 | true => lvl = DEBUG /\ msg = MsgMarkdownSaved
                 | false => lvl = ERROR
                 end).
  { intros d t' (lvl & msg & Hlast & Hb)%last_download_and_save lg.
    exists lvl, msg. split; [by apply last_later | by destruct b]. }
  destruct (PyStr.startswith (url_for_prefix_check target_url) DEEPWIKI_BASE_URL).
  - run_step H. by eapply Hrest.
  - destruct (PyStr.startswith (url_for_prefix_check target_url) GITHUB_BASE_URL).
    + run_step H. by eapply Hrest.
    + run_step H. run_step H. run_end H. by eexists _, _.
Qed.

End RunsOfSaveMarkdown.

(** ** Sample runs *)

Ltac sample_run :=
  repeat (vm_compute;
          first [ split; reflexivity
                | exists tt; eexists; split; [reflexivity|]
                | eexists _, _; split; [reflexivity|] ]).

Lemma timeout_run_runs : runs timeout_call timeout_run false.
Proof. sample_run. Qed.

Lemma html_unsaved_run_runs : runs html_unsaved_call html_unsaved_run true.
Proof. sample_run. Qed.

Lemma markdown_unsaved_run_runs : runs markdown_unsaved_call markdown_unsaved_run false.
Proof. sample_run. Qed.

Lemma requests_go_to_deepwiki_witness :
  runs html_unsaved_call html_unsaved_run true
  /\ length (requested html_unsaved_run) <= 1
  /\ forall url,
       url ∈ requested html_unsaved_run ->
       PyStr.startswith url DEEPWIKI_BASE_URL = true
       /\ (url = "https://github.com/Org/Repo?tab=readme"
           \/ exists rest, "https://github.com/Org/Repo?tab=readme" = GITHUB_BASE_URL +:+ rest
                           /\ url = DEEPWIKI_BASE_URL +:+ rest).
Proof.
  split; [exact html_unsaved_run_runs|].
  pose proof html_unsaved_run_runs as H. unfold html_unsaved_call in H.
  apply requests_go_to_deepwiki in H. exact H.
Defined.

Lemma request_carries_headers_witness :
  runs html_unsaved_call html_unsaved_run true
  /\ EvGet "https://deepwiki.com/Org/Repo?tab=readme"
       (effective_headers (Some {[ "Accept" := "text/html" ]})) 30 (Returns "raw")
     ∈ html_unsaved_run
  /\ effective_headers (Some {[ "Accept" := "text/html" ]}) !! "User-Agent"
     = Some default_user_agent
  /\ effective_headers (Some {[ "Accept" := "text/html" ]}) !! "Accept" = Some "text/html".
Proof.
  assert (Hin : EvGet "https://deepwiki.com/Org/Repo?tab=readme"
                  (effective_headers (Some {[ "Accept" := "text/html" ]})) 30 (Returns "raw")
                ∈ html_unsaved_run)
    by (do 2 apply list_elem_of_further; apply list_elem_of_here).
  split; [exact html_unsaved_run_runs|]. split; [exact Hin|].
  pose proof html_unsaved_run_runs as H. unfold html_unsaved_call in H.
  destruct (request_carries_headers _ _ _ _ _ _ _ _ _ _ _ _ _ _ _ _ _ H Hin)
    as (_ & Hagent & Hothers).
  split; [exact Hagent|]. by rewrite Hothers.
Defined.

Lemma failed_fetch_aborts_witness :
  runs timeout_call timeout_run false
  /\ EvGet "https://deepwiki.com/Org/Repo" (effective_headers None) 30 (Raises RequestsTimeout)
     ∈ timeout_run
  /\ false = false
  /\ forall ev, ev ∈ timeout_run -> ~ is_file_event ev.
Proof.
  assert (Hin : EvGet "https://deepwiki.com/Org/Repo" (effective_headers None) 30
                  (Raises RequestsTimeout) ∈ timeout_run)
    by (do 2 apply list_elem_of_further; apply list_elem_of_here).
  split; [exact timeout_run_runs|]. split; [exact Hin|].
  pose proof timeout_run_runs as H. unfold timeout_call in H.
  eapply failed_fetch_aborts; [exact H|]. left. by eexists _, _, _, _.
Defined.

Lemma true_iff_markdown_saved_witness :
  runs html_unsaved_call html_unsaved_run true
  /\ (true = true
      <-> exists chunks path sep encoding,
            EvSave chunks path sep encoding (Returns tt) ∈ html_unsaved_run).
Proof.
  split; [exact html_unsaved_run_runs|].
  pose proof html_unsaved_run_runs as H. unfold html_unsaved_call in H.
  exact (true_iff_markdown_saved _ _ _ _ _ _ _ _ _ _ _ _ _ H).
Defined.

Lemma html_not_kept_not_touched_witness :
  runs markdown_unsaved_call markdown_unsaved_run false
  /\ forall ev,
       ev ∈ markdown_unsaved_run ->
       match ev with
       | EvExists _ _ | EvMakeDirs _ _ | EvWrite _ _ _ _ => False
       | _ => True
       end.
Proof.
  split; [exact markdown_unsaved_run_runs|].
  pose proof markdown_unsaved_run_runs as H. unfold markdown_unsaved_call in H.
  exact (html_not_kept_not_touched _ _ _ _ _ _ _ _ _ _ _ _ _ eq_refl H).
Defined.

Lemma html_saved_as_decoded_witness :
  runs html_unsaved_call html_unsaved_run true
  /\ EvWrite "out/repo_original.html" "utf-8" "<html>" (Raises OSError) ∈ html_unsaved_run
  /\ "out/repo_original.html" = (OsPath.splitext "out/repo.md").1 +:+ "_original.html"
  /\ exists raw, EvDecode raw "utf-8" (Returns "<html>") ∈ html_unsaved_run.
Proof.
  assert (Hin : EvWrite "out/repo_original.html" "utf-8" "<html>" (Raises OSError)
                ∈ html_unsaved_run)
    by (do 7 apply list_elem_of_further; apply list_elem_of_here).
  split; [exact html_unsaved_run_runs|]. split; [exact Hin|].
  pose proof html_unsaved_run_runs as H. unfold html_unsaved_call in H.
  destruct (html_saved_as_decoded _ _ _ _ _ _ _ _ _ _ _ _ _ _ _ _ _ H Hin)
    as (_ & Hpath & _ & Hraw).
  split; [exact Hpath | exact Hraw].
Defined.

Lemma markdown_saved_from_decoded_page_witness :
  runs markdown_unsaved_call markdown_unsaved_run false
  /\ EvDecode "raw" "latin-1" (Returns "<html>") ∈ markdown_unsaved_run
  /\ exists answer, EvSave [] "repo.md" "---" "utf-8" answer ∈ markdown_unsaved_run.
Proof.
  assert (Hin : EvDecode "raw" "latin-1" (Returns "<html>") ∈ markdown_unsaved_run)
    by (do 3 apply list_elem_of_further; apply list_elem_of_here).
  split; [exact markdown_unsaved_run_runs|]. split; [exact Hin|].
  pose proof markdown_unsaved_run_runs as H. unfold markdown_unsaved_call in H.
  exact (proj2 (markdown_saved_from_decoded_page _ _ _ _ _ _ _ _ _ _ _ _ _ H) _ _ _ Hin).
Defined.

Lemma derived_html_path_is_not_markdown_path_witness :
  runs html_unsaved_call html_unsaved_run true
  /\ EvWrite "out/repo_original.html" "utf-8" "<html>" (Raises OSError) ∈ html_unsaved_run
  /\ "out/repo_original.html" <> "out/repo.md".
Proof.
  assert (Hin : EvWrite "out/repo_original.html" "utf-8" "<html>" (Raises OSError)
                ∈ html_unsaved_run)
    by (do 7 apply list_elem_of_further; apply list_elem_of_here).
  split; [exact html_unsaved_run_runs|]. split; [exact Hin|].
  pose proof html_unsaved_run_runs as H. unfold html_unsaved_call in H.
  exact (derived_html_path_is_not_markdown_path _ _ _ _ _ _ _ _ _ _ _ _ _ _ _ _ _
           (or_introl eq_refl) H Hin).
Defined.

Lemma run_ends_with_its_outcome_witness :
  runs markdown_unsaved_call markdown_unsaved_run false
  /\ exists msg, last markdown_unsaved_run = Some (EvLog ERROR msg).
Proof.
  split; [exact markdown_unsaved_run_runs|].
  pose proof markdown_unsaved_run_runs as H. unfold markdown_unsaved_call in H.
  destruct (run_ends_with_its_outcome _ _ _ _ _ _ _ _ _ _ _ _ _ H) as (lvl & msg & Hlast & ->).
  by exists msg.
Defined.

End RunFacts.
